(** * bilibili_api.dynamic: mention resolution, post builder, feed-item handle

    A shallow embedding of [src/bilibili_api/dynamic.py].

    - A Python [str] is a list of Unicode code points ([N]); [py] turns
      an ASCII literal into one.
    - A Python exception is a constructor of [exn]; code that can raise
      returns a [result].
    - Dict literals sent to the network layer are [gmap string pyval].
    - Builder methods and coroutines run in the monad [ST]: the builder
      methods over the builder, the coroutines over the list of requests
      issued so far. *)

From Stdlib Require Import Ascii String DecimalString DecimalZ DecimalPos.
From stdpp Require Import gmap strings list fin_maps.

Open Scope N_scope.

(** ** Strings *)

Definition str := list N.

Definition py (s : string) : str := N_of_ascii <$> list_ascii_of_string s.

(** The inverse of [py] on texts whose code points fit a byte. *)
Fixpoint unpy (s : str) : option string :=
  match s with
  | [] => Some EmptyString
  | c :: s' =>
      if c <? 256
      then match unpy s' with
           | Some a => Some (String (ascii_of_N c) a)
           | None => None
           end
      else None
  end.

Definition AT_SIGN : N := 64.
Definition NEWLINE : N := 10.
Definition SPACE : N := 32.

(** [Py_UNICODE_ISSPACE], which is what [\s] tests in a [str] pattern. *)
Definition isspace (c : N) : bool :=
  existsb (N.eqb c)
    [9; 10; 11; 12; 13; 28; 29; 30; 31; 32; 133; 160; 5760;
     8192; 8193; 8194; 8195; 8196; 8197; 8198; 8199; 8200; 8201; 8202;
     8232; 8233; 8239; 8287; 12288].

Definition str_eqb (a b : str) : bool := bool_decide (a = b).

(** [s.startswith(sub)] *)
Fixpoint starts_with (sub s : str) : bool :=
  match sub, s with
  | [], _ => true
  | _ :: _, [] => false
  | a :: sub', b :: s' => (a =? b) && starts_with sub' s'
  end.

(** [s.find(sub)], with [None] for Python's -1. *)
Fixpoint str_find (sub s : str) : option nat :=
  if starts_with sub s then Some 0%nat
  else match s with
       | [] => None
       | _ :: s' => S <$> str_find sub s'
       end.

(** The scan of [s.replace(old, new)] for a non-empty [old]: at an
    occurrence of [old] emit [new] and skip the rest of the occurrence,
    so occurrences are taken left to right and never overlap. *)
Fixpoint replace_go (old new : str) (skip : nat) (s : str) : str :=
  match s with
  | [] => []
  | c :: s' =>
      match skip with
      | S k => replace_go old new k s'
      | O =>
          if starts_with old s
          then new ++ replace_go old new (length old - 1) s'
          else c :: replace_go old new 0 s'
      end
  end.

(** [s.replace(old, new)]; an empty [old] matches between all characters. *)
Definition str_replace (s old new : str) : str :=
  match old with
  | [] => new ++ flat_map (fun c => c :: new) s
  | _ :: _ => replace_go old new 0 s
  end.

(** [sep.join(l)] *)
Fixpoint str_join (sep : str) (l : list str) : str :=
  match l with
  | [] => []
  | [x] => x
  | x :: rest => x ++ sep ++ str_join sep rest
  end.

(** [str(z)] for an int: decimal digits after an optional minus sign. *)
Definition str_of_Z (z : Z) : str := py (NilZero.string_of_int (Z.to_int z)).

(** ** Exceptions and results *)

Inductive exn :=
| KeyError
| IndexError
| ValueError
| TypeError
| AttributeError
| CredentialNoSessdataException
| CredentialNoBiliJctException
| NetworkException
| ResponseCodeException (code : Z).

Inductive result (A : Type) :=
| Ok (a : A)
| Raise (e : exn).
Arguments Ok {A} a.
Arguments Raise {A} e.

Definition rbind {A B} (r : result A) (k : A -> result B) : result B :=
  match r with
  | Ok a => k a
  | Raise e => Raise e
  end.

Notation "'let?' x ':=' r 'in' k" := (rbind r (fun x => k))
  (at level 20, x name, r at level 100, k at level 200).

(** [d[key]] on a field that may be absent from a decoded JSON object. *)
Definition field {A} (o : option A) : result A :=
  match o with
  | Some a => Ok a
  | None => Raise KeyError
  end.

(** [l[i]] *)
Definition list_getitem {A} (l : list A) (i : nat) : result A :=
  match l !! i with
  | Some a => Ok a
  | None => Raise IndexError
  end.

(** [s.index(sub)] *)
Definition str_index (s sub : str) : result nat :=
  match str_find sub s with
  | Some i => Ok i
  | None => Raise ValueError
  end.

(** [int(s)] for the spellings [str] gives an int: ASCII decimal digits
    after an optional minus sign.  That is the only kind of string
    [_parse_at] passes to [int]; anything else is a [ValueError] here. *)
Definition int_of_str (s : str) : result Z :=
  match unpy s with
  | Some a =>
      match NilZero.int_of_string a with
      | Some d => Ok (Z.of_int d)
      | None => Raise ValueError
      end
  | None => Raise ValueError
  end.

(** ** The pattern [(?<=@).*?(?=\s)] *)

(** [.*?(?=\s)] tried at the head of [s]: the shortest run of characters
    other than a newline that is followed by a whitespace character.
    The result is the run and what is left of [s] behind it.
    [must_advance] is the matcher's flag that refuses the empty run. *)
Fixpoint lazy_until_space (must_advance : bool) (s : str) : option (str * str) :=
  match s with
  | [] => None
  | c :: s' =>
      if isspace c && negb must_advance then Some ([], s)
      else if c =? NEWLINE then None
      else match lazy_until_space false s' with
           | Some (m, rest) => Some (c :: m, rest)
           | None => None
           end
  end.

(** The character in front of the position a match ended at. *)
Definition prev_after (prev : option N) (m : str) : option N :=
  match last m with
  | Some c => Some c
  | None => prev
  end.

(** [re.finditer]: search from the current position for the first start
    position, preceded by [@], at which the pattern matches; report the
    match; resume at its end, and after an empty match refuse another
    empty match at the same place.  [prev] is the character in front of
    the position, [s] the text from the position on. *)
Fixpoint finditer_go (fuel : nat) (prev : option N) (must_advance : bool)
    (s : str) : list str :=
  match fuel with
  | O => []
  | S fuel' =>
      match (if bool_decide (prev = Some AT_SIGN)
             then lazy_until_space must_advance s else None) with
      | Some (m, rest) =>
          m :: finditer_go fuel' (prev_after prev m) (str_eqb m []) rest
      | None =>
          match s with
          | [] => []
          | c :: s' => finditer_go fuel' (Some c) false s'
          end
      end
  end.

(** Each round either moves on in the text or turns [must_advance] on,
    so this many rounds are enough. *)
Definition finditer_fuel (must_advance : bool) (s : str) : nat :=
  2 * length s + (if must_advance then 1 else 2).

Definition finditer_at (text : str) : list str :=
  finditer_go (finditer_fuel false text) None false text.

(** ** Mention resolution *)

(** The decoded reply of [user.name2uid]: the key [uid_list] may be
    absent; each entry may lack [uid]; a uid is a JSON integer. *)
Record name2uid_entry := { entry_uid : option Z }.
Record name2uid_reply := { reply_uid_list : option (list name2uid_entry) }.

(** The decoded reply of [User.get_user_info]. *)
Record user_info_reply := { info_name : option str }.

(** A record of the control array. *)
Record ctrl_record := {
  ctrl_location : Z;
  ctrl_type : Z;
  ctrl_length : Z;
  ctrl_data : Z
}.

(** The three variables the first loop of [_parse_at] updates. *)
Record at_state := {
  uid_list : list str;
  names : list str;
  new_text : str
}.

(** A key of a JSON object as [json.dumps] writes it: quoted, then [": "]. *)
Definition json_key (k : string) : str := [34] ++ py k ++ [34] ++ py ": ".

(** [json.dumps] of one control record, keys in insertion order. *)
Definition json_dumps_record (r : ctrl_record) : str :=
  py "{" ++ json_key "location" ++ str_of_Z (ctrl_location r) ++
  py ", " ++ json_key "type" ++ str_of_Z (ctrl_type r) ++
  py ", " ++ json_key "length" ++ str_of_Z (ctrl_length r) ++
  py ", " ++ json_key "data" ++ str_of_Z (ctrl_data r) ++ py "}".

(** [json.dumps(ctrl, ensure_ascii=False)] *)
Definition json_dumps_ctrl (ctrl : list ctrl_record) : str :=
  py "[" ++ str_join (py ", ") (json_dumps_record <$> ctrl) ++ py "]".

(** ** Values exchanged with the network layer *)

#[warnings="-register-all"]
Inductive pyval :=
| PNone
| PBool (b : bool)
| PInt (z : Z)
| PStr (s : str)
| PBytes (b : list N)
| PList (l : list pyval)
| PDict (d : gmap string pyval).

(** [v[key]] *)
Definition getitem (v : pyval) (key : string) : result pyval :=
  match v with
  | PDict d =>
      match d !! key with
      | Some x => Ok x
      | None => Raise KeyError
      end
  | _ => Raise TypeError
  end.

(** The [scene] parameter. *)
Module SendDynmaicType.

Inductive t := TEXT | IMAGE.

Definition value (x : t) : Z :=
  match x with
  | TEXT => 1
  | IMAGE => 2
  end.

End SendDynmaicType.

Module DynmaicContentType.

Inductive t := TEXT | EMOJI | AT | VOTE.

Definition value (x : t) : Z :=
  match x with
  | TEXT => 1
  | EMOJI => 9
  | AT => 2
  | VOTE => 4
  end.

End DynmaicContentType.

Module DynamicType.

Inductive t := ALL | ANIME | ARTICLE | VIDEO.

Definition value (x : t) : str :=
  match x with
  | ALL => py "all"
  | ANIME => py "pgc"
  | ARTICLE => py "article"
  | VIDEO => py "video"
  end.

End DynamicType.

(** ** Collaborators that live in other modules of the package *)

(** Modelled from the spec: [utils.Credential.Credential] is not among the
    sources.  Section 3 calls it a bag of session secrets and section 6
    gives it guard methods that fail when a required secret is absent. *)
Record Credential := {
  sessdata : option str;
  bili_jct : option str;
  buvid3 : option str;
  dedeuserid : option str
}.

(** Modelled from the spec: [Credential()] with no argument holds no secret. *)
Definition Credential_empty : Credential :=
  {| sessdata := None; bili_jct := None; buvid3 := None; dedeuserid := None |}.

(** Modelled from the spec: the guard for the session-identity secret
    (section 6, "fail fast when a required secret is absent"). *)
Definition raise_for_no_sessdata (c : Credential) : result unit :=
  match sessdata c with
  | Some _ => Ok tt
  | None => Raise CredentialNoSessdataException
  end.

(** Modelled from the spec: the guard for the cross-site-request token. *)
Definition raise_for_no_bili_jct (c : Credential) : result unit :=
  match bili_jct c with
  | Some _ => Ok tt
  | None => Raise CredentialNoBiliJctException
  end.

(** Modelled from the spec: [utils.Picture.Picture] is not among the
    sources; section 4.2 names the url, width and height of an uploaded
    image, and [upload_image] reads its [content]. *)
Record Picture := {
  pic_url : str;
  pic_width : Z;
  pic_height : Z;
  pic_content : list N
}.

(** A Python instance, as the attributes that can be read from it. *)
Record instance := { ob_attrs : gmap string pyval }.

(** [obj.name], once [name] is the identifier the compiler left there. *)
Definition getattr (o : instance) (name : string) : result pyval :=
  match ob_attrs o !! name with
  | Some v => Ok v
  | None => Raise AttributeError
  end.

Fixpoint strip_underscores (s : string) : string :=
  match s with
  | String "_" s' => strip_underscores s'
  | _ => s
  end.

Definition ends_with_dunder (s : string) : bool :=
  match String.rev s with
  | String "_" (String "_" _) => true
  | _ => false
  end.

(** Private name mangling: an identifier that begins with two
    underscores and does not end with two, written in the body of class
    [cls], is compiled to [_cls] followed by the identifier. *)
Definition mangle (cls name : string) : string :=
  match name with
  | String "_" (String "_" _) =>
      if ends_with_dunder name then name
      else match strip_underscores cls with
           | EmptyString => name
           | c => String "_" (c +:+ name)
           end
  | _ => name
  end.

(** [k] is a name some private identifier of class [cls] is compiled to. *)
Definition private_of (cls k : string) : bool :=
  String.prefix (String "_" (strip_underscores cls +:+ "__")) k.

(** Modelled from the spec: [user.User] is not among the sources.  The
    spec's user handle wraps one id; like [Dynamic.__init__] below, the
    constructor keeps it in a private attribute assigned in the body of
    its own class, next to the public [credential]. *)
Definition User_init (uid : Z) (credential : pyval) : instance :=
  {| ob_attrs := {[ mangle "User" "__uid" := PInt uid;
                    "credential" := credential ]} |}.

(** Modelled from the spec: [topic.Topic] is not among the sources; a
    topic handle wraps one id in the same way. *)
Definition Topic_init (topic_id : Z) (credential : pyval) : instance :=
  {| ob_attrs := {[ mangle "Topic" "__topic_id" := PInt topic_id;
                    "credential" := credential ]} |}.

(** Modelled from the spec: [vote.Vote] is not among the sources; section
    4.2 gives a vote an id and a title fetched on demand. *)
Record Vote := { vote_id : Z }.

Inductive user_arg := UserId (uid : Z) | UserHandle (u : instance).
Inductive topic_arg := TopicId (topic_id : Z) | TopicHandle (t : instance).
Inductive vote_arg := VoteId (vote_id : Z) | VoteHandle (v : Vote).

(** ** State and exceptions *)

(** A computation that may raise and that updates a state of type [S];
    the state survives a raise. *)
Definition ST (S A : Type) : Type := S -> result A * S.

Definition st_ret {S A} (a : A) : ST S A := fun s => (Ok a, s).

Definition st_bind {S A B} (m : ST S A) (k : A -> ST S B) : ST S B :=
  fun s =>
    match m s with
    | (Ok a, s') => k a s'
    | (Raise e, s') => (Raise e, s')
    end.

Definition st_lift {S A} (r : result A) : ST S A := fun s => (r, s).

Definition st_modify {S} (f : S -> S) : ST S unit := fun s => (Ok tt, f s).

Notation "'let!' x ':=' m 'in' k" := (st_bind m (fun x => k))
  (at level 20, x name, m at level 100, k at level 200).

(** ** The post builder *)

Record BuildDynmaic := {
  contents : list pyval;
  pics : list pyval;
  attach_card : option (gmap string pyval);
  topic : option (gmap string pyval);
  options : gmap string pyval
}.

Definition BuildDynmaic_init : BuildDynmaic :=
  {| contents := []; pics := []; attach_card := None; topic := None;
     options := ∅ |}.

Definition append_content (frag : gmap string pyval) (self : BuildDynmaic)
    : BuildDynmaic :=
  {| contents := contents self ++ [PDict frag]; pics := pics self;
     attach_card := attach_card self; topic := topic self;
     options := options self |}.

Definition add_text (text : str) (self : BuildDynmaic) : BuildDynmaic :=
  append_content
    {[ "biz_id" := PStr [];
       "type" := PInt (DynmaicContentType.value DynmaicContentType.TEXT);
       "raw_text" := PStr text ]} self.

Definition add_emoji (emoji_name : str) (self : BuildDynmaic) : BuildDynmaic :=
  append_content
    {[ "biz_id" := PStr [];
       "type" := PInt (DynmaicContentType.value DynmaicContentType.EMOJI);
       "raw_text" := PStr emoji_name ]} self.

Definition add_image (image : Picture) (self : BuildDynmaic) : BuildDynmaic :=
  {| contents := contents self;
     pics := pics self ++
       [PDict {[ "img_src" := PStr (pic_url image);
                 "img_width" := PInt (pic_width image);
                 "img_height" := PInt (pic_height image) ]}];
     attach_card := attach_card self; topic := topic self;
     options := options self |}.

Definition set_attach_card (oid : Z) (self : BuildDynmaic) : BuildDynmaic :=
  {| contents := contents self; pics := pics self;
     attach_card := Some {[ "type" := PInt 14; "biz_id" := PInt oid;
                            "reserve_source" := PInt 1;
                            "reserve_lottery" := PInt 0 ]};
     topic := topic self; options := options self |}.

Definition store_topic (topic_id : pyval) (self : BuildDynmaic) : BuildDynmaic :=
  {| contents := contents self; pics := pics self;
     attach_card := attach_card self;
     topic := Some {[ "id" := topic_id ]};
     options := options self |}.

Definition set_options (up_choose_comment close_comment : bool)
    (self : BuildDynmaic) : BuildDynmaic :=
  let o := options self in
  let o := if up_choose_comment then <["up_choose_comment" := PInt 1]> o else o in
  let o := if close_comment then <["close_comment" := PInt 1]> o else o in
  {| contents := contents self; pics := pics self;
     attach_card := attach_card self; topic := topic self; options := o |}.

Definition get_dynamic_type (self : BuildDynmaic) : SendDynmaicType.t :=
  if negb (length (pics self) =? 0)%nat then SendDynmaicType.IMAGE
  else SendDynmaicType.TEXT.

Definition get_contents (self : BuildDynmaic) : list pyval := contents self.
Definition get_pics (self : BuildDynmaic) : list pyval := pics self.
Definition get_attach_card (self : BuildDynmaic) := attach_card self.
Definition get_topic (self : BuildDynmaic) := topic self.
Definition get_options (self : BuildDynmaic) := options self.

(** One method call on a builder. *)
Inductive call :=
| CallAddText (text : str)
| CallAddAt (user : user_arg)
| CallAddEmoji (emoji_name : str)
| CallAddVote (vote : vote_arg)
| CallAddImage (image : Picture)
| CallSetAttachCard (oid : Z)
| CallSetTopic (topic : topic_arg)
| CallSetOptions (up_choose_comment close_comment : bool).

Definition is_add_image (c : call) : bool :=
  match c with
  | CallAddImage _ => true
  | _ => false
  end.

(** ** Feed items and requests *)

Record Dynamic := {
  dynamic_id : pyval;
  credential : Credential
}.

(** [Dynamic.__init__] *)
Definition Dynamic_init (dynamic_id : pyval) (credential : option Credential)
    : Dynamic :=
  {| dynamic_id := dynamic_id;
     credential := match credential with
                   | Some c => c
                   | None => Credential_empty
                   end |}.

(** The arguments of one call of the network dispatcher. *)
Record request_args := {
  req_method : string;
  req_url : str;
  req_params : option (gmap string pyval);
  req_data : option (gmap string pyval);
  req_files : option (gmap string pyval);
  req_json_body : bool;
  req_credential : option Credential
}.

(** What goes out to the network: a call of the dispatcher, or the
    self-info lookup of [user.get_self_info]. *)
Inductive event :=
| EvRequest (r : request_args)
| EvGetSelfInfo (c : Credential).

(** The requests issued so far, oldest first. *)
Definition world := list event.

(** ** Fixtures for the examples *)

Definition reply_uid (uid : Z) : result name2uid_reply :=
  Ok {| reply_uid_list := Some [ {| entry_uid := Some uid |} ] |}.

Definition reply_not_found : result name2uid_reply :=
  Ok {| reply_uid_list := None |}.

(** A directory in which only the name alice resolves, to uid 42. *)
Definition only_alice (uname : str) : result name2uid_reply :=
  if str_eqb uname (py "alice") then reply_uid 42 else reply_not_found.

(** Every user is called [name]. *)
Definition all_named (name : string) (uid : Z) : result user_info_reply :=
  Ok {| info_name := Some (py name) |}.

Definition no_repr (v : pyval) : str := [].

Definition no_title (vote_id : Z) : result str := Raise NetworkException.

Definition urls (section name : string) : str := py (section +:+ "/" +:+ name).

Definition silent (w : world) (e : event) : result pyval := Ok (PDict ∅).

Definition self_is (mid : Z) (w : world) (e : event) : result pyval :=
  match e with
  | EvGetSelfInfo _ => Ok (PDict {[ "mid" := PInt mid ]})
  | EvRequest _ => Ok (PDict ∅)
  end.

Definition logged_in : Credential :=
  {| sessdata := Some (py "s"); bili_jct := Some (py "j");
     buvid3 := None; dedeuserid := None |}.

(** A directory that knows nobody and answers with an empty list. *)
Definition empty_uid_list (uname : str) : result name2uid_reply :=
  Ok {| reply_uid_list := Some [] |}.

(** A directory in which every name resolves to uid 42. *)
Definition all_are_42 (uname : str) : result name2uid_reply := reply_uid 42.

(** User information without a name. *)
Definition nameless (uid : Z) : result user_info_reply :=
  Ok {| info_name := None |}.

(** A decoder that wraps what it is given in a list. *)
Definition loads_wrap (v : pyval) : result pyval := Ok (PList [v]).

(** [int] on the ints and the decimal strings. *)
Definition int_plain (v : pyval) : result Z :=
  match v with
  | PInt z => Ok z
  | PStr s => int_of_str s
  | _ => Raise TypeError
  end.

(** A remote side that answers every request with one card. *)
Definition one_card (w : world) (e : event) : result pyval :=
  Ok (PDict {[ "card" :=
            PDict {[ "card" := PStr (py "{}");
                     "extend_json" := PStr (py "[]");
                     "desc" := PInt 5 ]} ]}).

(** A remote side that answers every request with two feed items. *)
Definition two_items (w : world) (e : event) : result pyval :=
  Ok (PDict {[ "items" :=
            PList [PDict {[ "id_str" := PStr (py "11") ]};
                   PDict {[ "id_str" := PStr (py "12") ]}] ]}).

(** A remote side that confirms a post with the id 77. *)
Definition posted_77 (w : world) (e : event) : result pyval :=
  Ok (PDict {[ "dyn_id" := PInt 77 ]}).

(** A remote side that is down. *)
Definition offline (w : world) (e : event) : result pyval :=
  Raise NetworkException.

(** Every vote is titled poll. *)
Definition titled_poll (vote_id : Z) : result str := Ok (py "poll").

Section Dynamic.

(** The two lookups [_parse_at] awaits, as functions of their argument:
    [user.name2uid(uname)] and [User(uid).get_user_info()]. *)
Variable name2uid : str -> result name2uid_reply.
Variable get_user_info : Z -> result user_info_reply.

(** [repr] of the values [str] does not spell out below. *)
Variable repr_other : pyval -> str.

(** [sync(Vote(vote_id).get_title())] *)
Variable get_title : Z -> result str.

(** The endpoint table: [API[section][name]["url"]]. *)
Variable API : string -> string -> str.

(** What the remote side answers to an event, given what went before. *)
Variable respond : world -> event -> result pyval.

(** [(await user.name2uid(uname))["uid_list"][0]["uid"]] *)
Definition lookup_uid (uname : str) : result Z :=
  let? reply := name2uid uname in
  let? l := field (reply_uid_list reply) in
  let? entry := list_getitem l 0 in
  field (entry_uid entry).

(** The body of the first loop, for one match. *)
Definition at_body (st : at_state) (uname : str) : result at_state :=
  match lookup_uid uname with
  | Raise KeyError => Ok st
  | Raise e => Raise e
  | Ok uid =>
      let? user_info := get_user_info uid in
      let? name := field (info_name user_info) in
      Ok {| uid_list := uid_list st ++ [str_of_Z uid];
            names := names st ++ [name];
            new_text := str_replace (new_text st)
                          (AT_SIGN :: str_of_Z uid ++ [SPACE])
                          (AT_SIGN :: name ++ [SPACE]) |}
  end.

Fixpoint at_loop (match_result : list str) (st : at_state) : result at_state :=
  match match_result with
  | [] => Ok st
  | uname :: rest =>
      let? st' := at_body st uname in
      at_loop rest st'
  end.

(** The second loop: [for i, name in enumerate(names)]. *)
Fixpoint ctrl_loop (text : str) (uids : list str) (i : nat) (todo : list str)
    (ctrl : list ctrl_record) : result (list ctrl_record) :=
  match todo with
  | [] => Ok ctrl
  | name :: rest =>
      let? index := str_index text (AT_SIGN :: name) in
      let length_ := (2 + Z.of_nat (length name))%Z in
      let? u := list_getitem uids i in
      let? data := int_of_str u in
      ctrl_loop text uids (S i) rest
        (ctrl ++ [{| ctrl_location := Z.of_nat index; ctrl_type := 1;
                     ctrl_length := length_; ctrl_data := data |}])
  end.

(** [_parse_at] from the point where the matches are known. *)
Definition parse_at_matches (match_result : list str) (text : str)
    : result (str * str * str) :=
  let? st := at_loop match_result
               {| uid_list := []; names := []; new_text := text |} in
  let at_uids := str_join (py ",") (uid_list st) in
  let? ctrl := ctrl_loop (new_text st) (uid_list st) 0 (names st) [] in
  Ok (new_text st, at_uids, json_dumps_ctrl ctrl).

Definition _parse_at (text : str) : result (str * str * str) :=
  let text := text ++ py " " in
  parse_at_matches (finditer_at text) text.

(** [str(v)], which is also what [f"{v}"] writes. *)
Definition py_str (v : pyval) : str :=
  match v with
  | PNone => py "None"
  | PBool true => py "True"
  | PBool false => py "False"
  | PInt z => str_of_Z z
  | PStr s => s
  | other => repr_other other
  end.

Definition add_at (user : user_arg) : ST BuildDynmaic unit :=
  let! user :=
    match user with
    | UserHandle u => st_lift (getattr u (mangle "BuildDynmaic" "__uid"))
    | UserId uid => st_ret (PInt uid)
    end in
  st_modify (append_content
    {[ "biz_id" := user;
       "type" := PInt (DynmaicContentType.value DynmaicContentType.EMOJI);
       "raw_text" := PStr (AT_SIGN :: py_str user) ]}).

(** The text the web client puts in front of a vote. *)
Definition vote_caption : str :=
  [25105; 21457; 36215; 20102; 19968; 20010; 25237; 31080].

Definition add_vote (vote : vote_arg) : ST BuildDynmaic unit :=
  let! _ := st_modify (add_text vote_caption) in
  let vote :=
    match vote with
    | VoteId n => {| vote_id := n |}
    | VoteHandle v => v
    end in
  let! title := st_lift (get_title (vote_id vote)) in
  st_modify (append_content
    {[ "biz_id" := PStr (str_of_Z (vote_id vote));
       "type" := PInt (DynmaicContentType.value DynmaicContentType.VOTE);
       "raw_text" := PStr title ]}).

Definition set_topic (topic : topic_arg) : ST BuildDynmaic unit :=
  let! topic :=
    match topic with
    | TopicHandle t =>
        st_lift (getattr t (mangle "BuildDynmaic" "__topic_id"))
    | TopicId n => st_ret (PInt n)
    end in
  st_modify (store_topic topic).

Definition invoke (c : call) : ST BuildDynmaic unit :=
  match c with
  | CallAddText text => st_modify (add_text text)
  | CallAddAt user => add_at user
  | CallAddEmoji emoji_name => st_modify (add_emoji emoji_name)
  | CallAddVote vote => add_vote vote
  | CallAddImage image => st_modify (add_image image)
  | CallSetAttachCard oid => st_modify (set_attach_card oid)
  | CallSetTopic topic => set_topic topic
  | CallSetOptions a b => st_modify (set_options a b)
  end.

(** The builder after a sequence of calls, each made whether or not an
    earlier one raised. *)
Definition run_calls (cs : list call) (self : BuildDynmaic) : BuildDynmaic :=
  foldl (fun b c => snd (invoke c b)) self cs.

(** Modelled from the spec: the network dispatcher
    [utils.network_httpx.request] is not among the sources.  Section 6:
    given method, url, params, data, json_body, files and credential it
    performs the call and returns the decoded reply, or raises. *)
Definition request (args : request_args) : ST world pyval :=
  fun w => (respond w (EvRequest args), w ++ [EvRequest args]).

(** Modelled from the spec: [user.get_self_info] is not among the sources;
    section 4.4 calls it a self-info lookup, which is a network call. *)
Definition get_self_info (c : Credential) : ST world pyval :=
  fun w => (respond w (EvGetSelfInfo c), w ++ [EvGetSelfInfo c]).

Definition upload_image (image : Picture) (credential : Credential)
    : ST world pyval :=
  let! _ := st_lift (raise_for_no_sessdata credential) in
  let! _ := st_lift (raise_for_no_bili_jct credential) in
  let data : gmap string pyval :=
    {[ "biz" := PStr (py "new_dyn"); "category" := PStr (py "daily") ]} in
  request {| req_method := "POST"; req_url := API "send" "upload_img";
             req_params := None; req_data := Some data;
             req_files := Some {[ "file_up" := PBytes (pic_content image) ]};
             req_json_body := false; req_credential := Some credential |}.

(** The [params] of [get_reposts]. *)
Definition get_reposts_params (self : Dynamic) (offset : str)
    : gmap string pyval :=
  let params : gmap string pyval := {[ "dynamic_id" := dynamic_id self ]} in
  if negb (str_eqb offset (py "0"))
  then <["offset" := PStr offset]> params
  else params.

Definition get_reposts (self : Dynamic) (offset : str) : ST world pyval :=
  request {| req_method := "GET"; req_url := API "info" "repost";
             req_params := Some (get_reposts_params self offset);
             req_data := None; req_files := None; req_json_body := false;
             req_credential := Some (credential self) |}.

Definition set_like (self : Dynamic) (status : bool) : ST world pyval :=
  let! _ := st_lift (raise_for_no_sessdata (credential self)) in
  let! _ := st_lift (raise_for_no_bili_jct (credential self)) in
  let! user_info := get_self_info (credential self) in
  let! self_uid := st_lift (getitem user_info "mid") in
  let data : gmap string pyval :=
    {[ "dynamic_id" := dynamic_id self;
       "up" := PInt (if status then 1 else 2);
       "uid" := self_uid ]} in
  request {| req_method := "POST"; req_url := API "operate" "like";
             req_params := None; req_data := Some data; req_files := None;
             req_json_body := false;
             req_credential := Some (credential self) |}.

Definition delete (self : Dynamic) : ST world pyval :=
  let! _ := st_lift (raise_for_no_sessdata (credential self)) in
  let data : gmap string pyval := {[ "dynamic_id" := dynamic_id self ]} in
  request {| req_method := "POST"; req_url := API "operate" "delete";
             req_params := None; req_data := Some data; req_files := None;
             req_json_body := false;
             req_credential := Some (credential self) |}.

(** [data["dyn_req"]] as [send_dynamic] assembles it. *)
Definition dyn_req (info : BuildDynmaic) : gmap string pyval :=
  let d : gmap string pyval :=
    {[ "content" := PDict {[ "contents" := PList (get_contents info) ]};
       "scene" := PInt (SendDynmaicType.value (get_dynamic_type info));
       "meta" := PDict {[ "app_meta" :=
                   PDict {[ "from" := PStr (py "create.dynamic.web");
                            "mobi_app" := PStr (py "web") ]} ]} ]} in
  let d := if negb (length (get_pics info) =? 0)%nat
           then <["pics" := PList (get_pics info)]> d else d in
  let d := match get_topic info with
           | Some t => <["topic" := PDict t]> d
           | None => d
           end in
  let d := if (0 <? size (get_options info))%nat
           then <["option" := PDict (get_options info)]> d else d in
  match get_attach_card info with
  | Some card =>
      <["attach_card" := PDict {[ "common_card" := PDict card ]}]> d
  | None => <["attach_card" := PNone]> d
  end.

(** The optional secret as the value passed on: the string, or [None]. *)
Definition secret_value (o : option str) : pyval :=
  match o with
  | Some s => PStr s
  | None => PNone
  end.

Definition send_dynamic (info : BuildDynmaic) (credential : Credential)
    : ST world Dynamic :=
  let! _ := st_lift (raise_for_no_sessdata credential) in
  let data : gmap string pyval := {[ "dyn_req" := PDict (dyn_req info) ]} in
  let! send_result :=
    request {| req_method := "POST"; req_url := API "send" "instant";
               req_params :=
                 Some {[ "csrf" := secret_value (bili_jct credential) ]};
               req_data := Some data; req_files := None;
               req_json_body := true;
               req_credential := Some credential |} in
  let! dyn_id := st_lift (getitem send_result "dyn_id") in
  st_ret (Dynamic_init dyn_id (Some credential)).

(** ** The rest of the module *)

(** [json.loads], a function of its argument. *)
Variable json_loads : pyval -> result pyval.

(** [int(v)] for a value decoded from a reply. *)
Variable py_int : pyval -> result Z.

(** [d[key] = v] *)
Definition setitem (d : pyval) (key : string) (v : pyval) : result pyval :=
  match d with
  | PDict m => Ok (PDict (<[key := v]> m))
  | _ => Raise TypeError
  end.

(** The literal ['{"emoji_type":1}']. *)
Definition emoji_extension : str :=
  py "{" ++ [34] ++ py "emoji_type" ++ [34] ++ py ":1}".

Definition _get_text_data (text : str) : result (gmap string pyval) :=
  let? parsed := _parse_at text in
  match parsed with
  | (new_text, at_uids, ctrl) =>
      Ok {[ "dynamic_id" := PInt 0;
            "type" := PInt 4;
            "rid" := PInt 0;
            "content" := PStr new_text;
            "extension" := PStr emoji_extension;
            "at_uids" := PStr at_uids;
            "ctrl" := PStr ctrl ]}
  end.

Definition get_dynamic_id (self : Dynamic) : pyval := dynamic_id self.

Definition get_info (self : Dynamic) : ST world pyval :=
  let params : gmap string pyval := {[ "dynamic_id" := dynamic_id self ]} in
  let! data :=
    request {| req_method := "GET"; req_url := API "info" "detail";
               req_params := Some params; req_data := None;
               req_files := None; req_json_body := false;
               req_credential := Some (credential self) |} in
  let! card := st_lift (getitem data "card") in
  let! inner := st_lift (getitem card "card") in
  let! inner := st_lift (json_loads inner) in
  let! card := st_lift (setitem card "card" inner) in
  let! extend_json := st_lift (getitem card "extend_json") in
  let! extend_json := st_lift (json_loads extend_json) in
  let! card := st_lift (setitem card "extend_json" extend_json) in
  st_ret card.

Definition get_likes (self : Dynamic) (pn ps : Z) : ST world pyval :=
  let params : gmap string pyval :=
    {[ "dynamic_id" := dynamic_id self; "pn" := PInt pn; "ps" := PInt ps ]} in
  request {| req_method := "GET"; req_url := API "info" "likes";
             req_params := Some params; req_data := None;
             req_files := None; req_json_body := false;
             req_credential := Some (credential self) |}.

Definition repost (self : Dynamic) (text : str) : ST world pyval :=
  let! _ := st_lift (raise_for_no_sessdata (credential self)) in
  let! data := st_lift (_get_text_data text) in
  let data := <["dynamic_id" := dynamic_id self]> data in
  request {| req_method := "POST"; req_url := API "operate" "repost";
             req_params := None; req_data := Some data; req_files := None;
             req_json_body := false;
             req_credential := Some (credential self) |}.

Definition get_schedules_list (credential : Credential) : ST world pyval :=
  let! _ := st_lift (raise_for_no_sessdata credential) in
  request {| req_method := "GET"; req_url := API "schedule" "list";
             req_params := None; req_data := None; req_files := None;
             req_json_body := false; req_credential := Some credential |}.

Definition send_schedule_now (draft_id : Z) (credential : Credential)
    : ST world pyval :=
  let! _ := st_lift (raise_for_no_sessdata credential) in
  let data : gmap string pyval := {[ "draft_id" := PInt draft_id ]} in
  request {| req_method := "POST"; req_url := API "schedule" "publish_now";
             req_params := None; req_data := Some data; req_files := None;
             req_json_body := false; req_credential := Some credential |}.

Definition delete_schedule (draft_id : Z) (credential : Credential)
    : ST world pyval :=
  let! _ := st_lift (raise_for_no_sessdata credential) in
  let data : gmap string pyval := {[ "draft_id" := PInt draft_id ]} in
  request {| req_method := "POST"; req_url := API "schedule" "delete";
             req_params := None; req_data := Some data; req_files := None;
             req_json_body := false; req_credential := Some credential |}.

(** Modelled from the spec: [credential if credential else Credential()].
    The credential is a plain bag of secrets (section 3), so an instance
    counts as true and only [None] is replaced. *)
Definition credential_or_empty (credential : option Credential) : Credential :=
  match credential with
  | Some c => c
  | None => Credential_empty
  end.

Definition get_new_dynamic_users (credential : option Credential)
    : ST world pyval :=
  let credential := credential_or_empty credential in
  let! _ := st_lift (raise_for_no_sessdata credential) in
  request {| req_method := "GET";
             req_url := API "info" "attention_new_dynamic";
             req_params := None; req_data := None; req_files := None;
             req_json_body := false; req_credential := Some credential |}.

Definition get_live_users (size : Z) (credential : option Credential)
    : ST world pyval :=
  let credential := credential_or_empty credential in
  let! _ := st_lift (raise_for_no_sessdata credential) in
  let params : gmap string pyval := {[ "size" := PInt size ]} in
  request {| req_method := "GET"; req_url := API "info" "attention_live";
             req_params := Some params; req_data := None; req_files := None;
             req_json_body := false; req_credential := Some credential |}.

Definition get_dynamic_page_UPs_info (credential : Credential)
    : ST world pyval :=
  request {| req_method := "GET";
             req_url := API "info" "dynamic_page_UPs_info";
             req_params := None; req_data := None; req_files := None;
             req_json_body := false; req_credential := Some credential |}.

(** An optional int as the value passed on. *)
Definition optional_int (o : option Z) : pyval :=
  match o with
  | Some z => PInt z
  | None => PNone
  end.

(** The [params] of [get_dynamic_page_info].  A member of [DynamicType]
    counts as true; of the ints only 0 counts as false. *)
Definition dynamic_page_params (_type : option DynamicType.t)
    (host_mid : option Z) (pn : Z) (offset : option Z) : gmap string pyval :=
  let params : gmap string pyval :=
    {[ "timezone_offset" := PInt (-480);
       "features" := PStr (py "itemOpusStyle");
       "offset" := optional_int offset;
       "page" := PInt pn ]} in
  match _type with
  | Some t => <["type" := PStr (DynamicType.value t)]> params
  | None =>
      match host_mid with
      | Some mid =>
          if (mid =? 0)%Z then params
          else <["host_mid" := PInt mid]> params
      | None => params
      end
  end.

(** One round of the comprehension that ends [get_dynamic_page_info]. *)
Definition page_handle (credential : Credential) (dynamic : pyval)
    : result Dynamic :=
  let? id_str := getitem dynamic "id_str" in
  let? id := py_int id_str in
  Ok (Dynamic_init (PInt id) (Some credential)).

Fixpoint page_handles_of (credential : Credential) (items : list pyval)
    : result (list Dynamic) :=
  match items with
  | [] => Ok []
  | dynamic :: rest =>
      let? d := page_handle credential dynamic in
      let? ds := page_handles_of credential rest in
      Ok (d :: ds)
  end.

(** The comprehension over [dynmaic_data["items"]].  Over a list it visits
    the elements.  A dict yields its keys and a string its characters,
    which are strings and cannot be subscripted by [id_str]; bytes yield
    ints, which cannot be subscripted at all; so only the empty ones give
    a result.  The other values cannot be iterated. *)
Definition page_handles (credential : Credential) (items : pyval)
    : result (list Dynamic) :=
  match items with
  | PList l => page_handles_of credential l
  | PDict d => if bool_decide (d = ∅) then Ok [] else Raise TypeError
  | PStr [] => Ok []
  | PBytes [] => Ok []
  | _ => Raise TypeError
  end.

Definition get_dynamic_page_info (credential : Credential)
    (_type : option DynamicType.t) (host_mid : option Z) (pn : Z)
    (offset : option Z) : ST world (list Dynamic) :=
  let params := dynamic_page_params _type host_mid pn offset in
  let! dynmaic_data :=
    request {| req_method := "GET";
               req_url := API "info" "dynamic_page_info";
               req_params := Some params; req_data := None;
               req_files := None; req_json_body := false;
               req_credential := Some credential |} in
  let! items := st_lift (getitem dynmaic_data "items") in
  st_lift (page_handles credential items).

(** ** Vocabulary of the statements *)

(** The uids of the matches that resolve, in the order of the matches. *)
Definition resolved_uids (ms : list str) : list Z :=
  omap (fun uname =>
          match lookup_uid uname with
          | Ok uid => Some uid
          | Raise _ => None
          end) ms.

(** The display names of the matches that resolve, in the same order. *)
Definition resolved_names (ms : list str) : list str :=
  omap (fun uname =>
          match lookup_uid uname with
          | Ok uid =>
              match get_user_info uid with
              | Ok user_info => info_name user_info
              | Raise _ => None
              end
          | Raise _ => None
          end) ms.

(** A fragment as the submission endpoint takes it: the three keys, and
    the content-type code of a text, an emoji or a vote. *)
Definition fragment_ok (v : pyval) : Prop :=
  exists biz_id code raw_text,
    v = PDict {[ "biz_id" := biz_id; "type" := PInt code;
                 "raw_text" := PStr raw_text ]} /\
    (code = 1 \/ code = 9 \/ code = 4)%Z.

(** An image entry: the three keys of an uploaded picture. *)
Definition pic_ok (v : pyval) : Prop :=
  exists src width height,
    v = PDict {[ "img_src" := PStr src; "img_width" := PInt width;
                 "img_height" := PInt height ]}.

Definition sets_up_choose_comment (c : call) : bool :=
  match c with
  | CallSetOptions true _ => true
  | _ => false
  end.

Definition sets_close_comment (c : call) : bool :=
  match c with
  | CallSetOptions _ true => true
  | _ => false
  end.

(** The oid of the last [set_attach_card] among the calls, if any. *)
Fixpoint last_attach_card (cs : list call) : option Z :=
  match cs with
  | [] => None
  | c :: rest =>
      match last_attach_card rest with
      | Some oid => Some oid
      | None =>
          match c with
          | CallSetAttachCard oid => Some oid
          | _ => None
          end
      end
  end.

(** * Properties *)

(** ** The matcher *)

Lemma lazy_until_space_split must_advance s m rest :
  lazy_until_space must_advance s = Some (m, rest) ->
  s = m ++ rest /\ (m = [] -> must_advance = false).
Proof.
  revert must_advance m rest.
  induction s as [|c s IH]; intros ma m rest H; simpl in H; [discriminate|].
  destruct (isspace c && negb ma) eqn:E.
  - injection H as <- <-. split; [reflexivity|].
    intros _. apply andb_true_iff in E as [_ E]. by destruct ma.
  - destruct (c =? NEWLINE); [discriminate|].
    destruct (lazy_until_space false s) as [[m' r']|] eqn:E'; [|discriminate].
    injection H as <- <-. destruct (IH _ _ _ E') as [-> _].
    split; [reflexivity | discriminate].
Qed.

(** More fuel than [finditer_fuel] changes nothing: the search is total. *)
Lemma finditer_go_fuel fuel1 fuel2 prev must_advance s :
  (finditer_fuel must_advance s <= fuel1)%nat ->
  (finditer_fuel must_advance s <= fuel2)%nat ->
  finditer_go fuel1 prev must_advance s = finditer_go fuel2 prev must_advance s.
Proof.
  revert fuel2 prev must_advance s.
  induction fuel1 as [|f1 IH]; intros fuel2 prev ma s H1 H2.
  { unfold finditer_fuel in H1. destruct ma; lia. }
  destruct fuel2 as [|f2].
  { unfold finditer_fuel in H2. destruct ma; lia. }
  simpl.
  destruct (if bool_decide (prev = Some AT_SIGN)
            then lazy_until_space ma s else None) as [[m rest]|] eqn:E.
  - f_equal.
    assert (Hs : lazy_until_space ma s = Some (m, rest))
      by (destruct (bool_decide (prev = Some AT_SIGN)); [done | discriminate]).
    apply lazy_until_space_split in Hs as [-> Hma].
    unfold finditer_fuel, str_eqb in *. rewrite length_app in H1, H2.
    destruct m as [|c m].
    + rewrite (Hma eq_refl) in H1, H2. simpl in *. apply IH; simpl; lia.
    + rewrite bool_decide_eq_false_2 by discriminate.
      simpl in *. apply IH; destruct ma; simpl; lia.
  - destruct s as [|c s]; [reflexivity|].
    unfold finditer_fuel in *. simpl in *.
    apply IH; destruct ma; simpl; lia.
Qed.

(** Without an [@] in front there is nothing to find. *)
Lemma finditer_go_no_at fuel prev must_advance s :
  prev <> Some AT_SIGN -> AT_SIGN ∉ s ->
  finditer_go fuel prev must_advance s = [].
Proof.
  revert prev must_advance s.
  induction fuel as [|fuel IH]; intros prev ma s Hp Hs; [reflexivity|].
  simpl. rewrite bool_decide_eq_false_2 by done.
  destruct s as [|c s]; [reflexivity|].
  apply IH.
  - intros [= ->]. apply Hs. left.
  - intros ?. apply Hs. by right.
Qed.

Lemma lazy_until_space_finds s :
  (exists c, c ∈ s /\ isspace c = true) -> lazy_until_space false s <> None.
Proof.
  induction s as [|c s IH]; intros (x & Hx & Hsp).
  { by apply elem_of_nil in Hx. }
  simpl. destruct (isspace c) eqn:E; [discriminate|]. simpl.
  destruct (c =? NEWLINE) eqn:En.
  { apply N.eqb_eq in En. subst c. discriminate. }
  apply elem_of_cons in Hx as [->|Hx]; [congruence|].
  destruct (lazy_until_space false s) as [[m r]|]; [discriminate|].
  exfalso. apply IH; eauto.
Qed.

Lemma finditer_go_S fuel prev must_advance s :
  finditer_go (S fuel) prev must_advance s =
  match (if bool_decide (prev = Some AT_SIGN)
         then lazy_until_space must_advance s else None) with
  | Some (m, rest) =>
      m :: finditer_go fuel (prev_after prev m) (str_eqb m []) rest
  | None =>
      match s with
      | [] => []
      | c :: s' => finditer_go fuel (Some c) false s'
      end
  end.
Proof. reflexivity. Qed.

Lemma finditer_go_some_at t fuel prev must_advance :
  AT_SIGN ∈ t -> (length t + 2 <= fuel)%nat ->
  finditer_go fuel prev must_advance (t ++ [SPACE]) <> [].
Proof using.
  revert fuel prev must_advance.
  induction t as [|c t IH]; intros fuel prev ma Hin Hf.
  { by apply elem_of_nil in Hin. }
  destruct fuel as [|f]; [simpl in Hf; lia|].
  rewrite finditer_go_S.
  destruct (if bool_decide (prev = Some AT_SIGN)
            then lazy_until_space ma ((c :: t) ++ [SPACE]) else None)
    as [[m r]|]; [discriminate|].
  rewrite <- app_comm_cons. simpl in Hf.
  apply elem_of_cons in Hin as [<-|Hin]; [|apply IH; [done | lia]].
  destruct f as [|f]; [lia|]. rewrite finditer_go_S.
  rewrite bool_decide_eq_true_2 by reflexivity.
  destruct (lazy_until_space false (t ++ [SPACE])) as [[m r]|] eqn:E;
    [discriminate|].
  exfalso. revert E. apply lazy_until_space_finds.
  exists SPACE. split; [|reflexivity].
  apply elem_of_app. right. by apply list_elem_of_singleton.
Qed.

(** X1: on a text that ends with the sentinel, the pattern finds nothing
    exactly when the text has no [@]. *)
Lemma finditer_at_nil_iff text :
  finditer_at (text ++ py " ") = [] <-> AT_SIGN ∉ text.
Proof using.
  change (py " ") with [SPACE]. split.
  - intros H Hin. revert H. apply finditer_go_some_at; [done|].
    unfold finditer_fuel. rewrite length_app. simpl. lia.
  - intros H. apply finditer_go_no_at; [discriminate|].
    intros Hin. apply elem_of_app in Hin as [Hin|Hin]; [done|].
    apply list_elem_of_singleton in Hin. discriminate.
Qed.

Lemma unpy_py a : unpy (py a) = Some a.
Proof.
  induction a as [|c a IH]; [reflexivity|].
  change (py (String c a)) with (N_of_ascii c :: py a). simpl.
  pose proof (N_ascii_bounded c) as Hc. apply N.ltb_lt in Hc.
  by rewrite Hc, IH, ascii_N_embedding.
Qed.

(** [int(str(z))] is [z]: the second loop cannot fail on a uid. *)
Lemma int_of_str_of_Z z : int_of_str (str_of_Z z) = Ok z.
Proof.
  unfold int_of_str, str_of_Z. rewrite unpy_py, NilZero.isi.
  - by rewrite DecimalZ.of_to.
  - destruct z; [discriminate| |discriminate].
    intros [= H]. by apply Unsigned.to_uint_nonnil in H.
  - destruct z; [discriminate|discriminate|].
    intros [= H]. by apply Unsigned.to_uint_nonnil in H.
Qed.

(** ** Mention resolution *)

Lemma at_loop_app pre post st :
  at_loop (pre ++ post) st = let? st' := at_loop pre st in at_loop post st'.
Proof.
  revert st. induction pre as [|u pre IH]; intros st; simpl; [reflexivity|].
  destruct (at_body st u); simpl; [apply IH | reflexivity].
Qed.

Lemma at_body_not_found st uname :
  lookup_uid uname = Raise KeyError -> at_body st uname = Ok st.
Proof. intros H. unfold at_body. by rewrite H. Qed.

Lemma at_loop_skip pre uname post st :
  lookup_uid uname = Raise KeyError ->
  at_loop (pre ++ uname :: post) st = at_loop (pre ++ post) st.
Proof.
  intros H. rewrite !at_loop_app.
  destruct (at_loop pre st) as [st'|e]; simpl; [|reflexivity].
  by rewrite (at_body_not_found _ _ H).
Qed.

(** X3: when the lookup of every match ends in [KeyError], [_parse_at]
    returns the text with its sentinel, the empty uid list and the empty
    control array. *)
Lemma parse_at_all_unknown text :
  Forall (fun uname => lookup_uid uname = Raise KeyError)
    (finditer_at (text ++ py " ")) ->
  _parse_at text = Ok (text ++ py " ", [], py "[]").
Proof.
  intros H. unfold _parse_at, parse_at_matches.
  assert (Hl : forall ms st,
            Forall (fun uname => lookup_uid uname = Raise KeyError) ms ->
            at_loop ms st = Ok st).
  { induction ms as [|u ms IH]; intros st Hms; [reflexivity|].
    inversion Hms as [|? ? Hu Hrest]; subst. simpl.
    rewrite (at_body_not_found _ _ Hu). simpl. by apply IH. }
  rewrite (Hl _ _ H). reflexivity.
Qed.

(** X4: what [_parse_at] does with one resolved mention: it replaces
    occurrences of [@<uid> ], not of the token as written, and then looks
    for [@<name>] in the outcome.  If that is there, the call returns the
    replaced text, the one uid and one record for the place; if not, it
    raises [ValueError]. *)
Lemma parse_at_single_mention text uname uid name :
  finditer_at (text ++ py " ") = [uname] ->
  lookup_uid uname = Ok uid ->
  get_user_info uid = Ok {| info_name := Some name |} ->
  let replaced := str_replace (text ++ py " ")
                    (AT_SIGN :: str_of_Z uid ++ [SPACE])
                    (AT_SIGN :: name ++ [SPACE]) in
  _parse_at text =
  match str_find (AT_SIGN :: name) replaced with
  | Some index =>
      Ok (replaced, str_of_Z uid,
          json_dumps_ctrl
            [{| ctrl_location := Z.of_nat index; ctrl_type := 1;
                ctrl_length := 2 + Z.of_nat (length name);
                ctrl_data := uid |}])
  | None => Raise ValueError
  end.
Proof.
  intros Hm Hu Hi replaced.
  unfold _parse_at, parse_at_matches. rewrite Hm.
  cbn [at_loop]. unfold at_body. rewrite Hu, Hi.
  cbn [rbind field info_name new_text uid_list names app].
  fold replaced. clearbody replaced.
  cbn [ctrl_loop]. unfold str_index.
  destruct (str_find (AT_SIGN :: name) replaced); [|reflexivity].
  cbn [rbind list_getitem lookup list_lookup]. rewrite int_of_str_of_Z.
  reflexivity.
Qed.

(** C2, as amended: when the pattern finds no match in the text, [_parse_at]
    returns the text with the sentinel space appended, the empty string
    as uid list and [[]] as control array. *)
Theorem parse_at_no_mention text :
  finditer_at (text ++ py " ") = [] ->
  _parse_at text = Ok (text ++ py " ", [], py "[]").
Proof. intros H. unfold _parse_at. rewrite H. reflexivity. Qed.

(** C3: a match whose lookup ends in [KeyError] (no such user) is passed
    over.  Its round of the loop raises nothing and leaves the text, the
    uid list and the names, from which the control array is built, as they
    were; and [_parse_at] returns what it returns for the other matches
    alone. *)
Theorem parse_at_skips_unknown_user text pre uname post :
  finditer_at (text ++ py " ") = pre ++ uname :: post ->
  lookup_uid uname = Raise KeyError ->
  (forall st, at_body st uname = Ok st) /\
  _parse_at text = parse_at_matches (pre ++ post) (text ++ py " ").
Proof.
  intros Hm Hu. split.
  - intros st. by apply at_body_not_found.
  - unfold _parse_at. rewrite Hm. unfold parse_at_matches.
    by rewrite at_loop_skip.
Qed.

(** ** More on mention resolution *)

Lemma lazy_until_space_run name sp rest :
  Forall (fun c => isspace c = false) name -> isspace sp = true ->
  lazy_until_space false (name ++ sp :: rest) = Some (name, sp :: rest).
Proof.
  intros Hn Hsp. induction Hn as [|c name Hc _ IH]; simpl.
  - by rewrite Hsp.
  - rewrite Hc. simpl.
    destruct (c =? NEWLINE) eqn:E.
    { apply N.eqb_eq in E. subst c. discriminate. }
    by rewrite IH.
Qed.

Lemma finditer_go_skip pre fuel prev must_advance s :
  AT_SIGN ∉ pre -> prev <> Some AT_SIGN ->
  finditer_go (length pre + S fuel) prev must_advance (pre ++ AT_SIGN :: s)
  = finditer_go fuel (Some AT_SIGN) false s.
Proof.
  revert prev must_advance.
  induction pre as [|c pre IH]; intros prev ma Hpre Hprev.
  - simpl. by rewrite bool_decide_eq_false_2.
  - change (length (c :: pre) + S fuel)%nat
      with (S (length pre + S fuel)).
    rewrite finditer_go_S, bool_decide_eq_false_2 by done.
    rewrite <- app_comm_cons. apply IH.
    + intros ?. apply Hpre. by right.
    + intros [= ->]. apply Hpre. left.
Qed.

(** X2: a mention written after the first [@] of the text, free of
    whitespace and followed by whitespace or by the end of the text, is
    the first token [_parse_at] looks up, whatever stands in front of the
    [@] (a space is not needed there). *)
Theorem finditer_at_first_mention pre name tail :
  AT_SIGN ∉ pre ->
  Forall (fun c => isspace c = false) name ->
  match tail with
  | [] => True
  | c :: _ => isspace c = true
  end ->
  exists more,
    finditer_at ((pre ++ AT_SIGN :: name ++ tail) ++ py " ") = name :: more.
Proof.
  intros Hpre Hname Htail.
  assert (Hsp : exists sp rest,
            tail ++ py " " = sp :: rest /\ isspace sp = true).
  { destruct tail as [|c tail].
    - by exists SPACE, [].
    - by exists c, (tail ++ py " "). }
  destruct Hsp as (sp & rest & Heq & Hsp).
  assert (Htext : (pre ++ AT_SIGN :: name ++ tail) ++ py " "
                  = pre ++ AT_SIGN :: (name ++ sp :: rest)).
  { rewrite <- Heq, <- !app_assoc. simpl. by rewrite <- app_assoc. }
  unfold finditer_at. rewrite Htext.
  set (s := name ++ sp :: rest).
  rewrite (finditer_go_fuel _
             (length pre + S (S (finditer_fuel false (pre ++ AT_SIGN :: s))))
             None false).
  - rewrite finditer_go_skip by done.
    rewrite finditer_go_S, bool_decide_eq_true_2 by reflexivity.
    unfold s. rewrite (lazy_until_space_run _ _ _ Hname Hsp). eauto.
  - unfold finditer_fuel. rewrite ?length_app. simpl. lia.
  - unfold finditer_fuel. rewrite ?length_app. simpl. lia.
Qed.

Lemma at_loop_resolved ms st st' :
  at_loop ms st = Ok st' ->
  uid_list st' = uid_list st ++ (str_of_Z <$> resolved_uids ms) /\
  names st' = names st ++ resolved_names ms /\
  length (resolved_names ms) = length (resolved_uids ms).
Proof.
  revert st. induction ms as [|u ms IH]; intros st H.
  { injection H as <-. simpl. by rewrite !app_nil_r. }
  cbn [at_loop] in H. unfold at_body in H.
  unfold resolved_uids, resolved_names. cbn [omap list_omap].
  fold (resolved_uids ms). fold (resolved_names ms).
  destruct (lookup_uid u) as [uid|e].
  - destruct (get_user_info uid) as [info|e]; cbn [rbind] in H;
      [|discriminate].
    destruct (info_name info) as [name|]; cbn [rbind field] in H;
      [|discriminate].
    apply IH in H as (-> & -> & Hlen). cbn [uid_list names].
    rewrite <- !app_assoc. simpl. by rewrite Hlen.
  - destruct e; cbn [rbind] in H; try discriminate.
    by apply IH in H.
Qed.

Lemma ctrl_loop_records text uids i todo acc recs :
  ctrl_loop text uids i todo acc = Ok recs ->
  exists new,
    recs = acc ++ new /\
    Forall2 (fun name r =>
               str_find (AT_SIGN :: name) text
                 = Some (Z.to_nat (ctrl_location r)) /\
               (0 <= ctrl_location r)%Z /\
               ctrl_type r = 1%Z /\
               ctrl_length r = (2 + Z.of_nat (length name))%Z) todo new /\
    Forall2 (fun u r => int_of_str u = Ok (ctrl_data r))
      (take (length todo) (drop i uids)) new.
Proof.
  revert i acc.
  induction todo as [|name todo IH]; intros i acc H.
  { injection H as <-. exists []. by rewrite app_nil_r. }
  cbn [ctrl_loop] in H. unfold str_index, list_getitem in H.
  destruct (str_find (AT_SIGN :: name) text) as [index|] eqn:Ei;
    [|discriminate].
  cbn [rbind] in H.
  destruct (uids !! i) as [u|] eqn:Eu; [|discriminate].
  cbn [rbind] in H.
  destruct (int_of_str u) as [data|e] eqn:Ed; [|discriminate].
  cbn [rbind] in H.
  apply IH in H as (new & -> & Hn & Hu).
  eexists (_ :: new). split; [by rewrite <- app_assoc|]. split.
  - constructor; [|done]. simpl. rewrite Nat2Z.id. repeat split; [done|lia].
  - rewrite (drop_S _ _ _ Eu). simpl. by constructor.
Qed.

Lemma Forall2_int_of_str zs (recs : list ctrl_record) :
  Forall2 (fun u r => int_of_str u = Ok (ctrl_data r)) (str_of_Z <$> zs) recs ->
  ctrl_data <$> recs = zs.
Proof.
  revert recs. induction zs as [|z zs IH]; intros recs H;
    inversion H as [|? r ? recs' Hz Hrest]; subst; [reflexivity|].
  rewrite int_of_str_of_Z in Hz. injection Hz as ->.
  simpl. f_equal. by apply IH.
Qed.

(** X5: when [_parse_at] returns, its uid list holds the uids of the
    matches that resolved, in the order of the text and with repeats,
    joined by commas; and the control array has one record per such uid,
    in the same order, with that uid as [data] and 1 as [type]. *)
Theorem parse_at_uids_in_text_order text new_text at_uids ctrl :
  _parse_at text = Ok (new_text, at_uids, ctrl) ->
  at_uids
    = str_join (py ",")
        (str_of_Z <$> resolved_uids (finditer_at (text ++ py " "))) /\
  exists recs,
    ctrl = json_dumps_ctrl recs /\
    ctrl_data <$> recs = resolved_uids (finditer_at (text ++ py " ")) /\
    Forall (fun r => ctrl_type r = 1%Z) recs.
Proof.
  unfold _parse_at, parse_at_matches. intros H.
  set (uids := resolved_uids (finditer_at (text ++ py " "))).
  destruct (at_loop _ _) as [st|e] eqn:El; [|discriminate].
  apply at_loop_resolved in El as (Hu & Hn & Hlen).
  cbn [uid_list names app] in Hu, Hn. fold uids in Hu, Hlen.
  cbn [rbind] in H.
  destruct (ctrl_loop _ _ _ _ _) as [recs|e] eqn:Ec; [|discriminate].
  injection H as <- <- <-.
  apply ctrl_loop_records in Ec as (new & -> & Hnames & Hdata).
  split; [by rewrite Hu|]. exists new. split; [reflexivity|]. split.
  - apply Forall2_int_of_str.
    rewrite Hu, Hn, Hlen, drop_0 in Hdata.
    rewrite <- (length_fmap str_of_Z), firstn_all in Hdata. exact Hdata.
  - clear -Hnames. induction Hnames as [|? ? ? ? (_ & _ & Ht & _)];
      by constructor.
Qed.

Lemma str_find_starts_with sub s i :
  str_find sub s = Some i -> starts_with sub (drop i s) = true.
Proof.
  revert i. induction s as [|c s IH]; intros i H; simpl in H.
  - destruct (starts_with sub []) eqn:E; [|discriminate].
    injection H as <-. exact E.
  - destruct (starts_with sub (c :: s)) eqn:E.
    + injection H as <-. exact E.
    + destruct (str_find sub s) as [j|]; [|discriminate].
      injection H as <-. simpl. by apply IH.
Qed.

(** X6: when [_parse_at] returns, the control array has one record per
    display name of a resolved match, in order; its [location] is the
    index of the first [@name] in the returned text, where [@name] does
    stand, and its [length] is 2 plus the length of the name.  Two
    mentions of one name so get the same location. *)
Theorem parse_at_records_point_at_first_occurrence text new_text at_uids ctrl :
  _parse_at text = Ok (new_text, at_uids, ctrl) ->
  exists recs,
    ctrl = json_dumps_ctrl recs /\
    Forall2 (fun name r =>
               str_find (AT_SIGN :: name) new_text
                 = Some (Z.to_nat (ctrl_location r)) /\
               (0 <= ctrl_location r)%Z /\
               starts_with (AT_SIGN :: name)
                 (drop (Z.to_nat (ctrl_location r)) new_text) = true /\
               ctrl_length r = (2 + Z.of_nat (length name))%Z)
      (resolved_names (finditer_at (text ++ py " "))) recs.
Proof.
  unfold _parse_at, parse_at_matches. intros H.
  destruct (at_loop _ _) as [st|e] eqn:El; [|discriminate].
  apply at_loop_resolved in El as (_ & Hn & _). simpl in Hn.
  cbn [rbind] in H.
  destruct (ctrl_loop _ _ _ _ _) as [recs|e] eqn:Ec; [|discriminate].
  injection H as <- <- <-.
  apply ctrl_loop_records in Ec as (new & -> & Hnames & _).
  exists new. split; [reflexivity|]. rewrite Hn in Hnames.
  eapply Forall2_impl; [exact Hnames|].
  intros name r (Hf & H0 & _ & Hl). repeat split; try done.
  by apply str_find_starts_with.
Qed.

Lemma replace_go_absent old new s :
  str_find old s = None -> replace_go old new 0 s = s.
Proof.
  induction s as [|c s IH]; intros H; [reflexivity|].
  simpl in H. simpl replace_go.
  destruct (starts_with old (c :: s)); [discriminate|].
  destruct (str_find old s); [discriminate|].
  f_equal. by apply IH.
Qed.

Lemma at_loop_text_kept ms st st' :
  (forall uid, uid ∈ resolved_uids ms ->
     str_find (AT_SIGN :: str_of_Z uid ++ [SPACE]) (new_text st) = None) ->
  at_loop ms st = Ok st' -> new_text st' = new_text st.
Proof.
  revert st. induction ms as [|u ms IH]; intros st Habs H.
  { by injection H as <-. }
  cbn [at_loop] in H. unfold at_body in H.
  unfold resolved_uids in Habs. cbn [omap list_omap] in Habs.
  fold (resolved_uids ms) in Habs.
  destruct (lookup_uid u) as [uid|e].
  - destruct (get_user_info uid) as [info|e]; cbn [rbind] in H;
      [|discriminate].
    destruct (info_name info) as [name|]; cbn [rbind field] in H;
      [|discriminate].
    assert (Hkeep : str_replace (new_text st)
                      (AT_SIGN :: str_of_Z uid ++ [SPACE])
                      (AT_SIGN :: name ++ [SPACE]) = new_text st).
    { unfold str_replace. apply replace_go_absent, Habs. left. }
    rewrite Hkeep in H. apply IH in H; [exact H|].
    cbn [new_text]. intros z Hz. apply Habs. by right.
  - destruct e; cbn [rbind] in H; try discriminate. by apply IH in H.
Qed.

(** X7: the only thing [_parse_at] ever replaces is [@<uid> ], the uid
    in digits.  A text in which no resolved uid stands like that comes
    back as it went in, with the sentinel space behind it, whatever the
    display names are. *)
Theorem parse_at_rewrites_only_uids text new_text at_uids ctrl :
  (forall uid, uid ∈ resolved_uids (finditer_at (text ++ py " ")) ->
     str_find (AT_SIGN :: str_of_Z uid ++ [SPACE]) (text ++ py " ") = None) ->
  _parse_at text = Ok (new_text, at_uids, ctrl) ->
  new_text = text ++ py " ".
Proof.
  unfold _parse_at, parse_at_matches. intros Habs H.
  destruct (at_loop _ _) as [st|e] eqn:El; [|discriminate].
  apply at_loop_text_kept in El; [|exact Habs]. simpl in El.
  cbn [rbind] in H.
  destruct (ctrl_loop _ _ _ _ _); [|discriminate].
  by injection H as <- _ _.
Qed.

Lemma at_loop_all_unknown ms st :
  Forall (fun uname => lookup_uid uname = Raise KeyError) ms ->
  at_loop ms st = Ok st.
Proof.
  induction 1 as [|u ms Hu _ IH]; [reflexivity|].
  simpl. by rewrite (at_body_not_found _ _ Hu).
Qed.

(** X8: only a [KeyError] of the uid lookup is passed over.  At the
    first match whose lookup is not one, [_parse_at] as a whole raises:
    [IndexError] when the reply has an empty [uid_list], any other
    exception of the lookup as it is, and [KeyError] when the uid was
    found but the user information has no [name]. *)
Theorem parse_at_aborts_on_other_errors text pre uname post :
  finditer_at (text ++ py " ") = pre ++ uname :: post ->
  Forall (fun u => lookup_uid u = Raise KeyError) pre ->
  (name2uid uname = Ok {| reply_uid_list := Some [] |} ->
     _parse_at text = Raise IndexError) /\
  (forall e, e <> KeyError -> name2uid uname = Raise e ->
     _parse_at text = Raise e) /\
  (forall uid, lookup_uid uname = Ok uid ->
     get_user_info uid = Ok {| info_name := None |} ->
     _parse_at text = Raise KeyError).
Proof.
  intros Hm Hpre.
  assert (Hstep : forall e,
            (forall st, at_body st uname = Raise e) ->
            _parse_at text = Raise e).
  { intros e He. unfold _parse_at, parse_at_matches.
    rewrite Hm, at_loop_app, (at_loop_all_unknown _ _ Hpre).
    simpl. by rewrite He. }
  split; [|split].
  - intros Hr. apply Hstep. intros st.
    unfold at_body, lookup_uid. by rewrite Hr.
  - intros e Hne Hr. apply Hstep. intros st.
    unfold at_body, lookup_uid. rewrite Hr. simpl. by destruct e.
  - intros uid Hu Hi. apply Hstep. intros st.
    unfold at_body. by rewrite Hu, Hi.
Qed.

(** ** The post builder *)

Lemma get_dynamic_type_pics self :
  get_dynamic_type self =
  match pics self with
  | [] => SendDynmaicType.TEXT
  | _ :: _ => SendDynmaicType.IMAGE
  end.
Proof. unfold get_dynamic_type. by destruct (pics self). Qed.

(** Only [add_image] touches the image list, and it cannot raise. *)
Lemma invoke_pics c self :
  pics (snd (invoke c self)) =
  match c with
  | CallAddImage image => pics (add_image image self)
  | _ => pics self
  end.
Proof.
  destruct c as [text|user|emoji|vote|image|oid|topic_|a b]; simpl;
    try reflexivity.
  - unfold add_at, st_bind.
    destruct user as [uid|u]; simpl; [reflexivity|].
    unfold st_lift. by destruct (getattr u _).
  - unfold add_vote, st_bind, st_modify, st_lift. simpl.
    by destruct (get_title _).
  - unfold set_topic, st_bind.
    destruct topic_ as [n|t]; simpl; [reflexivity|].
    unfold st_lift. by destruct (getattr t _).
Qed.

Lemma run_calls_cons c cs self :
  run_calls (c :: cs) self = run_calls cs (snd (invoke c self)).
Proof. reflexivity. Qed.

Lemma run_calls_type cs self :
  get_dynamic_type (run_calls cs self) =
  if existsb is_add_image cs then SendDynmaicType.IMAGE
  else get_dynamic_type self.
Proof.
  revert self. induction cs as [|c cs IH]; intros self; [reflexivity|].
  rewrite run_calls_cons, IH. simpl.
  rewrite !get_dynamic_type_pics, invoke_pics.
  destruct c; simpl; try reflexivity.
  destruct (existsb is_add_image cs); [reflexivity|].
  by destruct (pics self).
Qed.

(** C4: [add_at] with a raw id raises nothing and appends one fragment
    whose biz-id is that id, but the fragment carries the content-type
    code of [EMOJI], 9, where the claim has that of [AT], 2. *)
Theorem add_at_appends_emoji_kind uid self :
  exists frag,
    add_at (UserId uid) self = (Ok tt, append_content frag self) /\
    contents (append_content frag self) = contents self ++ [PDict frag] /\
    frag !! "biz_id" = Some (PInt uid) /\
    frag !! "type"
      = Some (PInt (DynmaicContentType.value DynmaicContentType.EMOJI)) /\
    frag !! "type"
      <> Some (PInt (DynmaicContentType.value DynmaicContentType.AT)).
Proof.
  eexists. split; [reflexivity|].
  split; [reflexivity|].
  split; [by simplify_map_eq|].
  split; [by simplify_map_eq|].
  by simplify_map_eq.
Qed.

(** C6: the scene is [IMAGE] exactly when the image list is not empty.
    So after any sequence of builder calls, made on a fresh builder or on
    any other, whether or not some of them raised, it is [IMAGE] if one
    of the calls was [add_image]; otherwise it is what it was before,
    which for a fresh builder is [TEXT]. *)
Theorem get_dynamic_type_image_iff_added cs self :
  get_dynamic_type self
    = (if bool_decide (pics self = []) then SendDynmaicType.TEXT
       else SendDynmaicType.IMAGE) /\
  get_dynamic_type (run_calls cs self)
    = (if existsb is_add_image cs then SendDynmaicType.IMAGE
       else get_dynamic_type self) /\
  get_dynamic_type (run_calls cs BuildDynmaic_init)
    = (if existsb is_add_image cs then SendDynmaicType.IMAGE
       else SendDynmaicType.TEXT).
Proof.
  split; [|split].
  - rewrite get_dynamic_type_pics. by destruct (pics self).
  - apply run_calls_type.
  - by rewrite run_calls_type.
Qed.

(** C10: a handle that holds no attribute under a name private to
    [BuildDynmaic] makes [add_at] and [set_topic] raise [AttributeError],
    with the builder untouched: inside [BuildDynmaic] the identifiers
    [__uid] and [__topic_id] stand for [_BuildDynmaic__uid] and
    [_BuildDynmaic__topic_id].  A raw id never reaches that read. *)
Theorem handle_argument_raises_attribute_error (u t : instance) self :
  (forall k, is_Some (ob_attrs u !! k) -> private_of "BuildDynmaic" k = false) ->
  (forall k, is_Some (ob_attrs t !! k) -> private_of "BuildDynmaic" k = false) ->
  add_at (UserHandle u) self = (Raise AttributeError, self) /\
  set_topic (TopicHandle t) self = (Raise AttributeError, self) /\
  (forall n, fst (add_at (UserId n) self) = Ok tt) /\
  (forall n, fst (set_topic (TopicId n) self) = Ok tt).
Proof.
  intros Hu Ht.
  assert (Hnone : forall (o : instance) k,
            (forall k, is_Some (ob_attrs o !! k) ->
                       private_of "BuildDynmaic" k = false) ->
            private_of "BuildDynmaic" k = true ->
            getattr o k = Raise AttributeError).
  { intros o k Ho Hk. unfold getattr.
    destruct (ob_attrs o !! k) eqn:E; [|reflexivity].
    rewrite Ho in Hk by (rewrite E; eauto). discriminate. }
  repeat split.
  - unfold add_at, st_bind, st_lift. by rewrite (Hnone u _ Hu).
  - unfold set_topic, st_bind, st_lift. by rewrite (Hnone t _ Ht).
Qed.

(** ** More on the post builder *)

(** What one call does to the two lists: it appends, and what it appends
    has the wire shape. *)
Lemma invoke_appends c self :
  exists frags images,
    contents (snd (invoke c self)) = contents self ++ frags /\
    pics (snd (invoke c self)) = pics self ++ images /\
    Forall fragment_ok frags /\ Forall pic_ok images /\
    length images = (if is_add_image c then 1 else 0)%nat.
Proof.
  assert (Hfrag : forall biz_id code raw_text,
            (code = 1 \/ code = 9 \/ code = 4)%Z ->
            fragment_ok (PDict {[ "biz_id" := biz_id; "type" := PInt code;
                                  "raw_text" := PStr raw_text ]}))
    by (intros; unfold fragment_ok; eauto 10).
  assert (Hpic : forall src width height,
            pic_ok (PDict {[ "img_src" := PStr src; "img_width" := PInt width;
                             "img_height" := PInt height ]}))
    by (intros; unfold pic_ok; eauto).
  assert (Hnone : exists frags images : list pyval,
            contents self = contents self ++ frags /\
            pics self = pics self ++ images /\
            Forall fragment_ok frags /\ Forall pic_ok images /\
            length images = 0%nat).
  { exists [], []. rewrite !app_nil_r. repeat split; constructor. }
  assert (Hone : forall biz_id code raw_text,
            (code = 1 \/ code = 9 \/ code = 4)%Z ->
            exists frags images : list pyval,
              contents self ++
                [PDict {[ "biz_id" := biz_id; "type" := PInt code;
                          "raw_text" := PStr raw_text ]}]
                = contents self ++ frags /\
              pics self = pics self ++ images /\
              Forall fragment_ok frags /\ Forall pic_ok images /\
              length images = 0%nat).
  { intros biz_id code raw_text Hcode. eexists [_], [].
    rewrite app_nil_r. repeat split; repeat constructor. by apply Hfrag. }
  destruct c as [text|user|emoji|vote|image|oid|topic_|a b]; simpl.
  - apply Hone. auto.
  - unfold add_at, st_bind. destruct user as [uid|u]; simpl.
    + apply Hone. auto.
    + unfold st_lift. destruct (getattr u _); simpl;
        [apply Hone; auto | apply Hnone].
  - apply Hone. auto.
  - unfold add_vote, st_bind, st_modify, st_lift. simpl.
    destruct (get_title _); simpl; [|apply Hone; auto].
    eexists [_; _], []. rewrite app_nil_r, <- app_assoc.
    repeat split; repeat constructor; apply Hfrag; auto.
  - eexists [], [_]. rewrite app_nil_r.
    repeat split; repeat constructor. apply Hpic.
  - apply Hnone.
  - unfold set_topic, st_bind. destruct topic_ as [n|t]; simpl;
      [apply Hnone|].
    unfold st_lift. destruct (getattr t _); simpl; apply Hnone.
  - apply Hnone.
Qed.

Lemma run_calls_appends cs self :
  exists frags images,
    contents (run_calls cs self) = contents self ++ frags /\
    pics (run_calls cs self) = pics self ++ images /\
    Forall fragment_ok frags /\ Forall pic_ok images /\
    length images = length (List.filter is_add_image cs).
Proof.
  revert self. induction cs as [|c cs IH]; intros self.
  { exists [], []. rewrite !app_nil_r. repeat split; auto. }
  rewrite run_calls_cons.
  destruct (invoke_appends c self) as (f1 & i1 & Hc1 & Hp1 & Hf1 & Hi1 & Hl1).
  destruct (IH (snd (invoke c self)))
    as (f2 & i2 & Hc2 & Hp2 & Hf2 & Hi2 & Hl2).
  exists (f1 ++ f2), (i1 ++ i2).
  rewrite Hc2, Hp2, Hc1, Hp1, <- !app_assoc.
  repeat split; try by apply Forall_app.
  rewrite length_app, Hl1, Hl2. simpl.
  by destruct (is_add_image c).
Qed.

(** X9: the builder is append-only.  After any sequence of calls, the
    fragments and the images it held before are still there, in their
    places, in front of whatever was added. *)
Theorem builder_is_append_only cs self :
  contents self `prefix_of` contents (run_calls cs self) /\
  pics self `prefix_of` pics (run_calls cs self).
Proof.
  destruct (run_calls_appends cs self) as (frags & images & Hc & Hp & _).
  split; [exists frags | exists images]; done.
Qed.

(** X10: every fragment the builder's methods put into an empty builder
    has exactly the keys [biz_id], [type] and [raw_text], with the
    content-type code of a text (1), an emoji (9) or a vote (4); none
    carries the code of [AT] (2).  Every image entry has exactly the keys
    [img_src], [img_width] and [img_height]. *)
Theorem builder_entries_have_wire_shape cs :
  Forall fragment_ok (contents (run_calls cs BuildDynmaic_init)) /\
  Forall pic_ok (pics (run_calls cs BuildDynmaic_init)) /\
  forall frag,
    PDict frag ∈ contents (run_calls cs BuildDynmaic_init) ->
    frag !! "type"
      <> Some (PInt (DynmaicContentType.value DynmaicContentType.AT)).
Proof.
  destruct (run_calls_appends cs BuildDynmaic_init)
    as (frags & images & -> & -> & Hf & Hi & _).
  simpl. split; [done|]. split; [done|].
  intros frag Hin. rewrite Forall_forall in Hf.
  destruct (Hf _ Hin) as (b & code & r & [= ->] & Hcode).
  simplify_map_eq. intros [= ->]. simpl in Hcode. lia.
Qed.

(** X14: the builder holds as many images as [add_image] was called,
    on top of those it had; no call is refused for their number. *)
Theorem builder_counts_images cs self :
  length (pics (run_calls cs self))
  = (length (pics self) + length (List.filter is_add_image cs))%nat /\
  forall image, fst (invoke (CallAddImage image) self) = Ok tt.
Proof.
  destruct (run_calls_appends cs self) as (frags & images & _ & -> & _ & _ & Hl).
  split; [|reflexivity]. by rewrite length_app, Hl.
Qed.

Lemma invoke_options c self :
  options (snd (invoke c self)) =
  match c with
  | CallSetOptions a b => options (set_options a b self)
  | _ => options self
  end.
Proof.
  destruct c as [text|user|emoji|vote|image|oid|topic_|a b]; simpl;
    try reflexivity.
  - unfold add_at, st_bind.
    destruct user as [uid|u]; simpl; [reflexivity|].
    unfold st_lift. by destruct (getattr u _).
  - unfold add_vote, st_bind, st_modify, st_lift. simpl.
    by destruct (get_title _).
  - unfold set_topic, st_bind.
    destruct topic_ as [n|t]; simpl; [reflexivity|].
    unfold st_lift. by destruct (getattr t _).
Qed.

(** X11: an option flag is written, as the integer 1, by a
    [set_options] call that passes it as true, and by nothing else; a
    later call that passes false does not clear it, and no call touches
    another key of the options. *)
Theorem options_once_set_stay_set cs self :
  options (run_calls cs self) !! "up_choose_comment"
    = (if existsb sets_up_choose_comment cs then Some (PInt 1)
       else options self !! "up_choose_comment") /\
  options (run_calls cs self) !! "close_comment"
    = (if existsb sets_close_comment cs then Some (PInt 1)
       else options self !! "close_comment") /\
  forall k, k <> "up_choose_comment" -> k <> "close_comment" ->
    options (run_calls cs self) !! k = options self !! k.
Proof.
  revert self. induction cs as [|c cs IH]; intros self; [done|].
  rewrite run_calls_cons.
  destruct (IH (snd (invoke c self))) as (Hup & Hcl & Hother).
  rewrite Hup, Hcl, invoke_options. clear IH Hup Hcl.
  split; [|split].
  - simpl. destruct c as [| | | | | | |[] []]; simpl;
      destruct (existsb sets_up_choose_comment cs);
      unfold set_options; simpl; by simplify_map_eq.
  - simpl. destruct c as [| | | | | | |[] []]; simpl;
      destruct (existsb sets_close_comment cs);
      unfold set_options; simpl; by simplify_map_eq.
  - intros k H1 H2. rewrite (Hother k H1 H2), invoke_options.
    destruct c as [| | | | | | |[] []]; unfold set_options; simpl;
      by simplify_map_eq.
Qed.

Lemma invoke_attach_card c self :
  attach_card (snd (invoke c self)) =
  match c with
  | CallSetAttachCard oid => attach_card (set_attach_card oid self)
  | _ => attach_card self
  end.
Proof.
  destruct c as [text|user|emoji|vote|image|oid|topic_|a b]; simpl;
    try reflexivity.
  - unfold add_at, st_bind.
    destruct user as [uid|u]; simpl; [reflexivity|].
    unfold st_lift. by destruct (getattr u _).
  - unfold add_vote, st_bind, st_modify, st_lift. simpl.
    by destruct (get_title _).
  - unfold set_topic, st_bind.
    destruct topic_ as [n|t]; simpl; [reflexivity|].
    unfold st_lift. by destruct (getattr t _).
Qed.

(** X12: the attached card is that of the last [set_attach_card] call,
    a live-reservation card (type 14) for its oid; earlier cards are
    overwritten, and no other call touches the card. *)
Theorem attach_card_last_call_wins cs self :
  attach_card (run_calls cs self) =
  match last_attach_card cs with
  | Some oid =>
      Some {[ "type" := PInt 14; "biz_id" := PInt oid;
              "reserve_source" := PInt 1; "reserve_lottery" := PInt 0 ]}
  | None => attach_card self
  end.
Proof.
  revert self. induction cs as [|c cs IH]; intros self; [reflexivity|].
  rewrite run_calls_cons, IH. simpl.
  destruct (last_attach_card cs); [reflexivity|].
  rewrite invoke_attach_card. by destruct c.
Qed.

(** X13: [add_vote] appends its caption before it asks for the title.
    When the title comes, the vote fragment follows, with the vote id
    as a string for [biz_id] and the title as text; when the title fetch
    raises, the exception comes out and the caption stays in the
    builder. *)
Theorem add_vote_keeps_caption_on_failure vote self :
  let id := match vote with
            | VoteId n => n
            | VoteHandle v => vote_id v
            end in
  let caption := PDict {[ "biz_id" := PStr []; "type" := PInt 1;
                          "raw_text" := PStr vote_caption ]} in
  (forall e, get_title id = Raise e ->
     fst (add_vote vote self) = Raise e /\
     contents (snd (add_vote vote self)) = contents self ++ [caption]) /\
  (forall title, get_title id = Ok title ->
     fst (add_vote vote self) = Ok tt /\
     contents (snd (add_vote vote self))
       = contents self ++
         [caption;
          PDict {[ "biz_id" := PStr (str_of_Z id); "type" := PInt 4;
                   "raw_text" := PStr title ]}]).
Proof.
  intros id caption. subst id caption.
  unfold add_vote, st_bind, st_modify, st_lift.
  destruct vote as [n|[n]]; simpl; split.
  - by intros e ->.
  - intros title ->. simpl. by rewrite <- app_assoc.
  - by intros e ->.
  - intros title ->. simpl. by rewrite <- app_assoc.
Qed.

(** ** Requests *)

Lemma dyn_req_lookup_pics info :
  dyn_req info !! "pics" =
  if bool_decide (pics info = []) then None else Some (PList (pics info)).
Proof.
  unfold dyn_req, get_pics, get_topic, get_options, get_attach_card.
  destruct (attach_card info), (0 <? size (options info))%nat, (topic info),
    (pics info); by simplify_map_eq.
Qed.

Lemma dyn_req_lookup_topic info :
  dyn_req info !! "topic" = PDict <$> topic info.
Proof.
  unfold dyn_req, get_pics, get_topic, get_options, get_attach_card.
  destruct (attach_card info), (0 <? size (options info))%nat, (topic info),
    (pics info); by simplify_map_eq.
Qed.

Lemma dyn_req_lookup_option info :
  dyn_req info !! "option" =
  if bool_decide (options info = ∅) then None
  else Some (PDict (options info)).
Proof.
  unfold dyn_req, get_pics, get_topic, get_options, get_attach_card.
  assert (Hsz : (0 <? size (options info))%nat
                = negb (bool_decide (options info = ∅))).
  { case_bool_decide as E.
    - rewrite E, map_size_empty. reflexivity.
    - apply Nat.ltb_lt. apply map_size_non_empty_iff in E. lia. }
  rewrite Hsz.
  destruct (attach_card info), (bool_decide (options info = ∅)),
    (topic info), (pics info); by simplify_map_eq.
Qed.

Lemma dyn_req_lookup_attach_card info :
  dyn_req info !! "attach_card" =
  Some match attach_card info with
       | Some card => PDict {[ "common_card" := PDict card ]}
       | None => PNone
       end.
Proof.
  unfold dyn_req, get_attach_card.
  destruct (attach_card info); by simplify_map_eq.
Qed.

(** C5: in the body [send_dynamic] posts, [pics], [topic] and [option]
    are absent when the builder's image list is empty, its topic unset
    and its options empty, and hold the builder's value otherwise;
    [attach_card] is always there, wrapping the card under [common_card]
    when one is set and [None] when not.  With the session secret present
    the one request issued carries that body under [dyn_req]. *)
Theorem send_dynamic_optional_keys info cred w :
  dyn_req info !! "pics"
    = (if bool_decide (pics info = []) then None
       else Some (PList (pics info))) /\
  dyn_req info !! "topic" = PDict <$> topic info /\
  dyn_req info !! "option"
    = (if bool_decide (options info = ∅) then None
       else Some (PDict (options info))) /\
  dyn_req info !! "attach_card"
    = Some match attach_card info with
           | Some card => PDict {[ "common_card" := PDict card ]}
           | None => PNone
           end /\
  snd (send_dynamic info cred w)
    = match sessdata cred with
      | None => w
      | Some _ =>
          w ++ [EvRequest
                  {| req_method := "POST"; req_url := API "send" "instant";
                     req_params :=
                       Some {[ "csrf" := secret_value (bili_jct cred) ]};
                     req_data := Some {[ "dyn_req" := PDict (dyn_req info) ]};
                     req_files := None; req_json_body := true;
                     req_credential := Some cred |}]
      end.
Proof.
  split; [apply dyn_req_lookup_pics|].
  split; [apply dyn_req_lookup_topic|].
  split; [apply dyn_req_lookup_option|].
  split; [apply dyn_req_lookup_attach_card|].
  unfold send_dynamic, st_bind, st_lift, raise_for_no_sessdata, request.
  destruct (sessdata cred); [|reflexivity].
  destruct (respond w _) as [send_result|e]; [|reflexivity].
  by destruct (getitem send_result "dyn_id").
Qed.

(** C7: without the session secret, [send_dynamic], [upload_image],
    [set_like] and [delete] raise [CredentialNoSessdataException]; without
    the request token, [upload_image] and [set_like] raise one of the two
    credential exceptions.  In each case the list of issued requests is
    what it was. *)
Theorem missing_secret_raises_before_any_request
    info image id status cred w :
  let self := {| dynamic_id := id; credential := cred |} in
  (sessdata cred = None ->
     send_dynamic info cred w = (Raise CredentialNoSessdataException, w) /\
     upload_image image cred w = (Raise CredentialNoSessdataException, w) /\
     set_like self status w = (Raise CredentialNoSessdataException, w) /\
     delete self w = (Raise CredentialNoSessdataException, w)) /\
  (bili_jct cred = None ->
     exists e,
       (e = CredentialNoSessdataException \/
        e = CredentialNoBiliJctException) /\
       upload_image image cred w = (Raise e, w) /\
       set_like self status w = (Raise e, w)).
Proof.
  intros self. subst self. split.
  - intros Hs.
    unfold send_dynamic, upload_image, set_like, delete, st_bind, st_lift,
      raise_for_no_sessdata.
    simpl. rewrite Hs. repeat split.
  - intros Hj.
    unfold upload_image, set_like, st_bind, st_lift,
      raise_for_no_sessdata, raise_for_no_bili_jct.
    simpl. rewrite Hj. destruct (sessdata _); eexists; eauto.
Qed.

(** C8: the parameters of [get_reposts] lack [offset] exactly when the
    offset is the string [0]; any other offset is passed on under that
    key; and the request issued carries these parameters. *)
Theorem get_reposts_offset_param self offset w :
  (get_reposts_params self offset !! "offset" = None <-> offset = py "0") /\
  get_reposts_params self offset !! "offset"
    = (if bool_decide (offset = py "0") then None else Some (PStr offset)) /\
  get_reposts_params self offset !! "dynamic_id" = Some (dynamic_id self) /\
  snd (get_reposts self offset w)
    = w ++ [EvRequest
              {| req_method := "GET"; req_url := API "info" "repost";
                 req_params := Some (get_reposts_params self offset);
                 req_data := None; req_files := None;
                 req_json_body := false;
                 req_credential := Some (credential self) |}].
Proof.
  assert (H : get_reposts_params self offset !! "offset"
              = if bool_decide (offset = py "0") then None
                else Some (PStr offset)).
  { unfold get_reposts_params, str_eqb.
    case_bool_decide; by simplify_map_eq. }
  split; [|split; [exact H|split]].
  - rewrite H. case_bool_decide; split; intros; done.
  - unfold get_reposts_params. destruct (negb _); by simplify_map_eq.
  - reflexivity.
Qed.

(** C9: with both secrets present and a self-info reply that holds [mid],
    [set_like] issues the self-info lookup and then one POST whose data
    hold the dynamic id, [up] as the integer 1 for true and 2 for false,
    and [uid] as the [mid] of the reply. *)
Theorem set_like_status_encoding self status w s j user_info mid :
  sessdata (credential self) = Some s ->
  bili_jct (credential self) = Some j ->
  respond w (EvGetSelfInfo (credential self)) = Ok user_info ->
  getitem user_info "mid" = Ok mid ->
  snd (set_like self status w)
    = w ++ [EvGetSelfInfo (credential self);
            EvRequest
              {| req_method := "POST"; req_url := API "operate" "like";
                 req_params := None;
                 req_data :=
                   Some {[ "dynamic_id" := dynamic_id self;
                           "up" := PInt (if status then 1 else 2);
                           "uid" := mid ]};
                 req_files := None; req_json_body := false;
                 req_credential := Some (credential self) |}].
Proof.
  intros Hs Hj Hr Hm.
  unfold set_like, st_bind, st_lift, raise_for_no_sessdata,
    raise_for_no_bili_jct, get_self_info, request.
  rewrite Hs, Hj, Hr, Hm. simpl. by rewrite <- app_assoc.
Qed.

(** ** More on requests *)

(** X15: the scene of the body says whether it carries pictures: it is
    2 exactly when the key [pics] is there, and 1 otherwise. *)
Theorem dyn_req_scene_matches_pics info :
  dyn_req info !! "scene"
    = Some (PInt (if bool_decide (pics info = []) then 1 else 2)) /\
  (is_Some (dyn_req info !! "pics") <->
   dyn_req info !! "scene" = Some (PInt 2)).
Proof.
  assert (Hscene : dyn_req info !! "scene"
            = Some (PInt (if bool_decide (pics info = []) then 1 else 2))).
  { unfold dyn_req, get_pics, get_topic, get_options, get_attach_card,
      get_contents, get_dynamic_type.
    destruct (attach_card info), (0 <? size (options info))%nat,
      (topic info), (pics info); by simplify_map_eq. }
  split; [exact Hscene|].
  rewrite Hscene, dyn_req_lookup_pics.
  case_bool_decide; split; intros Hx; try done.
  all: by destruct Hx.
Qed.

(** X16: the body has the keys [content], [scene], [meta] and
    [attach_card], at most [pics], [topic] and [option] besides, and no
    other; [content] holds the builder's fragments in their order and
    [meta] names the web client. *)
Theorem dyn_req_keys info :
  dom (dyn_req info)
    ⊆ ({[ "content"; "scene"; "meta"; "attach_card";
          "pics"; "topic"; "option" ]} : gset string) /\
  ({[ "content"; "scene"; "meta"; "attach_card" ]} : gset string)
    ⊆ dom (dyn_req info) /\
  dyn_req info !! "content"
    = Some (PDict {[ "contents" := PList (contents info) ]}) /\
  dyn_req info !! "meta"
    = Some (PDict {[ "app_meta" :=
              PDict {[ "from" := PStr (py "create.dynamic.web");
                       "mobi_app" := PStr (py "web") ]} ]}).
Proof using.
  unfold dyn_req, get_pics, get_topic, get_options, get_attach_card,
    get_contents.
  assert (Hsub : forall X Y : gset string,
            (forall k, k ∈ X -> k ∈ Y) -> X ⊆ Y) by (intros X Y H k; apply H).
  destruct (attach_card info), (0 <? size (options info))%nat,
    (topic info), (negb _);
    (split; [|split; [|split]]);
    try (by simplify_map_eq);
    apply Hsub; intros k;
    rewrite !dom_insert_L, dom_singleton_L;
    rewrite !elem_of_union, !elem_of_singleton;
    clear; tauto.
Qed.

(** X17: with the session secret present [send_dynamic] posts once,
    whether or not the request token is there (it goes out as [csrf],
    [None] if absent).  The handle returned carries the [dyn_id] of the
    reply and the caller's credential.  A reply without [dyn_id] makes
    the call raise [KeyError], and an exception of the dispatcher comes
    out as it is; in both cases the post has gone out. *)
Theorem send_dynamic_outcome info cred s w :
  sessdata cred = Some s ->
  exists r,
    snd (send_dynamic info cred w) = w ++ [EvRequest r] /\
    req_method r = "POST" /\
    req_params r = Some {[ "csrf" := secret_value (bili_jct cred) ]} /\
    (forall reply dyn_id,
       respond w (EvRequest r) = Ok (PDict reply) ->
       reply !! "dyn_id" = Some dyn_id ->
       fst (send_dynamic info cred w)
         = Ok {| dynamic_id := dyn_id; credential := cred |}) /\
    (forall reply,
       respond w (EvRequest r) = Ok (PDict reply) ->
       reply !! "dyn_id" = None ->
       fst (send_dynamic info cred w) = Raise KeyError) /\
    (forall e,
       respond w (EvRequest r) = Raise e ->
       fst (send_dynamic info cred w) = Raise e).
Proof.
  intros Hs. eexists.
  unfold send_dynamic, st_bind, st_lift, st_ret, raise_for_no_sessdata,
    request.
  rewrite Hs. split.
  { destruct (respond w _) as [send_result|e]; [|reflexivity].
    by destruct (getitem send_result "dyn_id"). }
  split; [reflexivity|]. split; [reflexivity|].
  split; [|split].
  - intros reply dyn_id -> Hid. simpl. by rewrite Hid.
  - intros reply -> Hid. simpl. by rewrite Hid.
  - by intros e ->.
Qed.

(** X18: with both secrets present [set_like] first asks who the caller
    is.  If that lookup raises, or its reply has no [mid], [set_like]
    raises the same and sends no like: the lookup is the only thing that
    went out. *)
Theorem set_like_sends_nothing_without_mid self status w s j :
  sessdata (credential self) = Some s ->
  bili_jct (credential self) = Some j ->
  (forall e,
     respond w (EvGetSelfInfo (credential self)) = Raise e ->
     set_like self status w
       = (Raise e, w ++ [EvGetSelfInfo (credential self)])) /\
  (forall user_info e,
     respond w (EvGetSelfInfo (credential self)) = Ok user_info ->
     getitem user_info "mid" = Raise e ->
     set_like self status w
       = (Raise e, w ++ [EvGetSelfInfo (credential self)])).
Proof.
  intros Hs Hj.
  unfold set_like, st_bind, st_lift, raise_for_no_sessdata,
    raise_for_no_bili_jct, get_self_info.
  rewrite Hs, Hj. split.
  - by intros e ->.
  - by intros user_info e -> ->.
Qed.

(** X19: [repost], the three schedule operations and the two follower
    listings check the session secret first: without it they raise
    [CredentialNoSessdataException] and nothing goes out.  The two
    follower listings called without a credential make an empty one and
    so always end that way. *)
Theorem other_operations_guard_sessdata id text draft_id size cred w :
  (sessdata cred = None ->
     repost {| dynamic_id := id; credential := cred |} text w
       = (Raise CredentialNoSessdataException, w) /\
     get_schedules_list cred w = (Raise CredentialNoSessdataException, w) /\
     send_schedule_now draft_id cred w
       = (Raise CredentialNoSessdataException, w) /\
     delete_schedule draft_id cred w
       = (Raise CredentialNoSessdataException, w) /\
     get_new_dynamic_users (Some cred) w
       = (Raise CredentialNoSessdataException, w) /\
     get_live_users size (Some cred) w
       = (Raise CredentialNoSessdataException, w)) /\
  get_new_dynamic_users None w = (Raise CredentialNoSessdataException, w) /\
  get_live_users size None w = (Raise CredentialNoSessdataException, w).
Proof.
  split; [|split; reflexivity].
  intros Hs.
  unfold repost, get_schedules_list, send_schedule_now, delete_schedule,
    get_new_dynamic_users, get_live_users, credential_or_empty,
    st_bind, st_lift, raise_for_no_sessdata.
  simpl. rewrite Hs. repeat split.
Qed.

(** X20: the read operations check no secret.  Whatever the credential
    holds, [get_info], [get_likes], [get_dynamic_page_UPs_info] and
    [get_dynamic_page_info] each send exactly one request, a GET without
    a body that carries the credential as it is; what they do with the
    reply sends nothing more. *)
Theorem read_operations_send_one_get id cred pn ps _type host_mid offset w :
  let self := {| dynamic_id := id; credential := cred |} in
  let one_get (after : world) :=
    exists r, after = w ++ [EvRequest r] /\
              req_method r = "GET" /\ req_data r = None /\
              req_credential r = Some cred in
  one_get (snd (get_info self w)) /\
  one_get (snd (get_likes self pn ps w)) /\
  one_get (snd (get_dynamic_page_UPs_info cred w)) /\
  one_get (snd (get_dynamic_page_info cred _type host_mid pn offset w)).
Proof.
  intros self one_get. subst self one_get. cbv beta.
  split; [|split; [|split]].
  - eexists. split.
    + unfold get_info, st_bind, st_lift, st_ret, request.
      destruct (respond w _) as [data|]; [|reflexivity].
      destruct (getitem data "card") as [card|]; [|reflexivity].
      destruct (getitem card "card") as [inner|]; [|reflexivity].
      destruct (json_loads inner) as [d1|]; [|reflexivity].
      destruct (setitem card "card" d1) as [card1|]; [|reflexivity].
      destruct (getitem card1 "extend_json") as [ej|]; [|reflexivity].
      destruct (json_loads ej) as [d2|]; [|reflexivity].
      by destruct (setitem card1 "extend_json" d2).
    + done.
  - eexists. split; [reflexivity | done].
  - eexists. split; [reflexivity | done].
  - eexists. split.
    + unfold get_dynamic_page_info, st_bind, st_lift, request.
      destruct (respond w _) as [data|]; [|reflexivity].
      by destruct (getitem data "items").
    + done.
Qed.

(** X21: when the reply has a card whose [card] and [extend_json] both
    decode, [get_info] returns that card with the two fields replaced by
    what they decode to, and with every other field as it came. *)
Theorem get_info_decodes_two_fields self w data card inner extend_json d1 d2 :
  respond w
    (EvRequest
       {| req_method := "GET"; req_url := API "info" "detail";
          req_params := Some {[ "dynamic_id" := dynamic_id self ]};
          req_data := None; req_files := None; req_json_body := false;
          req_credential := Some (credential self) |}) = Ok data ->
  getitem data "card" = Ok (PDict card) ->
  card !! "card" = Some inner ->
  card !! "extend_json" = Some extend_json ->
  json_loads inner = Ok d1 ->
  json_loads extend_json = Ok d2 ->
  exists out,
    fst (get_info self w) = Ok (PDict out) /\
    out !! "card" = Some d1 /\
    out !! "extend_json" = Some d2 /\
    forall k, k <> "card" -> k <> "extend_json" -> out !! k = card !! k.
Proof.
  intros Hr Hc Hi He H1 H2.
  exists (<["extend_json" := d2]> (<["card" := d1]> card)).
  split.
  - unfold get_info, st_bind, st_lift, st_ret, request.
    rewrite Hr, Hc. cbn [getitem]. rewrite Hi, H1. cbn [setitem getitem].
    rewrite lookup_insert_ne by done. by rewrite He, H2.
  - split; [by simplify_map_eq|]. split; [by simplify_map_eq|].
    intros k Hk1 Hk2. by simplify_map_eq.
Qed.


(** X23: in the parameters of [get_dynamic_page_info] a type filter wins
    over a user filter: [type] is there exactly when a type is given,
    [host_mid] only when no type is given and the user id is not 0, never
    both.  [offset] and [page] are always there, [offset] as [None] when
    none is given. *)
Theorem dynamic_page_type_wins _type host_mid pn offset :
  let params := dynamic_page_params _type host_mid pn offset in
  params !! "type" = (fun t => PStr (DynamicType.value t)) <$> _type /\
  params !! "host_mid"
    = match _type, host_mid with
      | None, Some mid => if (mid =? 0)%Z then None else Some (PInt mid)
      | _, _ => None
      end /\
  ~ (is_Some (params !! "type") /\ is_Some (params !! "host_mid")) /\
  params !! "offset" = Some (optional_int offset) /\
  params !! "page" = Some (PInt pn) /\
  params !! "timezone_offset" = Some (PInt (-480)).
Proof.
  intros params. subst params. unfold dynamic_page_params.
  destruct _type as [t|]; [|destruct host_mid as [mid|];
                            [destruct (mid =? 0)%Z|]];
    repeat split; try by simplify_map_eq.
  all: intros [[? H1] [? H2]]; by simplify_map_eq.
Qed.

Lemma page_handles_of_items cred items ds :
  page_handles_of cred items = Ok ds ->
  Forall2 (fun item d =>
             exists id_str id,
               getitem item "id_str" = Ok id_str /\
               py_int id_str = Ok id /\
               d = {| dynamic_id := PInt id; credential := cred |})
    items ds.
Proof.
  revert ds. induction items as [|item items IH]; intros ds H.
  { injection H as <-. constructor. }
  cbn [page_handles_of] in H. unfold page_handle in H.
  destruct (getitem item "id_str") as [id_str|] eqn:Eg; [|discriminate].
  cbn [rbind] in H.
  destruct (py_int id_str) as [z|] eqn:Ez; [|discriminate].
  cbn [rbind] in H.
  destruct (page_handles_of cred items) as [ds'|]; [|discriminate].
  injection H as <-. constructor; [eauto|]. by apply IH.
Qed.

(** X24: when [get_dynamic_page_info] returns, and the reply's [items]
    is a list, there is one handle per item, in the order of the items;
    each has the item's [id_str] turned into an int as its id and the
    caller's credential. *)
Theorem dynamic_page_one_handle_per_item cred _type host_mid pn offset w
    reply items ds :
  respond w
    (EvRequest
       {| req_method := "GET"; req_url := API "info" "dynamic_page_info";
          req_params := Some (dynamic_page_params _type host_mid pn offset);
          req_data := None; req_files := None; req_json_body := false;
          req_credential := Some cred |}) = Ok (PDict reply) ->
  reply !! "items" = Some (PList items) ->
  fst (get_dynamic_page_info cred _type host_mid pn offset w) = Ok ds ->
  Forall2 (fun item d =>
             exists id_str id,
               getitem item "id_str" = Ok id_str /\
               py_int id_str = Ok id /\
               d = {| dynamic_id := PInt id; credential := cred |})
    items ds.
Proof.
  intros Hr Hi H.
  unfold get_dynamic_page_info, st_bind, st_lift, request in H.
  rewrite Hr in H. cbn [getitem] in H. rewrite Hi in H.
  cbn [fst page_handles] in H. by apply page_handles_of_items.
Qed.

End Dynamic.

(** * Closed instances *)

(** The matcher on texts that already end with the sentinel: an empty
    token after a bare [@], a token that itself ends with [@], and the
    second, non-empty match the matcher reports where it has just
    reported an empty one. *)
Example finditer_at_examples :
  finditer_at (py "hi @alice ") = [py "alice"] /\
  finditer_at (py "a@b.c hello @x ") = [py "b.c"; py "x"] /\
  finditer_at (py "@@a ") = [py "@a"] /\
  finditer_at (py "@ ") = [[]] /\
  finditer_at (py "@  x ") = [[]; py " "] /\
  finditer_at (py "@a@ x ") = [py "a@"; []; py " x"] /\
  finditer_at [AT_SIGN; NEWLINE; SPACE; 120; SPACE] = [[]].
Proof. repeat split; vm_compute; reflexivity. Qed.

Example str_replace_examples :
  str_replace (py "aaa") (py "aa") (py "b") = py "ba" /\
  str_replace (py "abc") [] (py "-") = py "-a-b-c-" /\
  str_replace (py "x @42 y @42 ") (py "@42 ") (py "@Al ") = py "x @Al y @Al ".
Proof. repeat split; vm_compute; reflexivity. Qed.

(** When the display name is the token as written, the mention is found
    where it stood. *)
Example parse_at_same_name :
  _parse_at only_alice (all_named "alice") (py "hi @alice")
  = Ok (py "hi @alice ", py "42",
        py "[{" ++ json_key "location" ++ py "3, " ++
        json_key "type" ++ py "1, " ++ json_key "length" ++ py "7, " ++
        json_key "data" ++ py "42}]").
Proof. vm_compute. reflexivity. Qed.

Example mangle_examples :
  mangle "BuildDynmaic" "__uid" = "_BuildDynmaic__uid" /\
  mangle "BuildDynmaic" "__topic_id" = "_BuildDynmaic__topic_id" /\
  mangle "User" "__uid" = "_User__uid" /\
  mangle "_Hidden" "__x" = "_Hidden__x" /\
  mangle "User" "__init__" = "__init__" /\
  mangle "User" "credential" = "credential".
Proof. repeat split. Qed.

(** A vote whose title cannot be fetched leaves its caption behind; a
    user handle and a topic handle leave nothing; the image decides the
    scene. *)
Example run_calls_example :
  let image := {| pic_url := py "u"; pic_width := 10; pic_height := 20;
                  pic_content := [] |} in
  let calls := [CallAddVote (VoteId 3);
                CallAddAt (UserHandle (User_init 5 PNone));
                CallSetTopic (TopicHandle (Topic_init 8 PNone));
                CallAddAt (UserId 5)] in
  let info := run_calls no_repr no_title calls BuildDynmaic_init in
  contents info
    = [PDict {[ "biz_id" := PStr []; "type" := PInt 1;
                "raw_text" := PStr vote_caption ]};
       PDict {[ "biz_id" := PInt 5; "type" := PInt 9;
                "raw_text" := PStr (py "@5") ]}] /\
  topic info = None /\
  get_dynamic_type info = SendDynmaicType.TEXT /\
  get_dynamic_type
    (run_calls no_repr no_title (CallAddImage image :: calls)
       BuildDynmaic_init)
    = SendDynmaicType.IMAGE.
Proof. repeat split. Qed.

(** The scenario of the spec: text, then one image, then the body. *)
Example dyn_req_text_and_image :
  let image := {| pic_url := py "u"; pic_width := 10; pic_height := 20;
                  pic_content := [] |} in
  let info := add_image image (add_text (py "hello") BuildDynmaic_init) in
  dyn_req info !! "scene" = Some (PInt 2) /\
  dyn_req info !! "content"
    = Some (PDict {[ "contents" :=
              PList [PDict {[ "biz_id" := PStr []; "type" := PInt 1;
                              "raw_text" := PStr (py "hello") ]}] ]}) /\
  dyn_req info !! "pics"
    = Some (PList [PDict {[ "img_src" := PStr (py "u");
                            "img_width" := PInt 10;
                            "img_height" := PInt 20 ]}]) /\
  dyn_req info !! "attach_card" = Some PNone /\
  dyn_req info !! "topic" = None /\
  dyn_req info !! "option" = None.
Proof. repeat split. Qed.

(** C1: one mention, [@alice], that resolves to uid 42, whose display
    name is Alice.  The pattern finds the one token, and [_parse_at]
    raises [ValueError]: the text never held [@42 ], so nothing was
    replaced, and [@Alice] is not in it. *)
Theorem parse_at_stale_name_raises :
  finditer_at (py "hi @alice" ++ py " ") = [py "alice"] /\
  lookup_uid only_alice (py "alice") = Ok 42%Z /\
  all_named "Alice" 42 = Ok {| info_name := Some (py "Alice") |} /\
  _parse_at only_alice (all_named "Alice") (py "hi @alice") = Raise ValueError.
Proof. repeat split; vm_compute; reflexivity. Qed.

(** C2, as stated, fails: the text comes back one space longer. *)
Lemma parse_at_no_mention_text_changed :
  finditer_at (py "hello" ++ py " ") = [] /\
  forall at_uids ctrl,
    _parse_at only_alice (all_named "alice") (py "hello")
    <> Ok (py "hello", at_uids, ctrl).
Proof.
  split; [vm_compute; reflexivity|].
  intros at_uids ctrl. vm_compute. intros [=].
Qed.

Lemma parse_at_no_mention_witness :
  _parse_at only_alice (all_named "alice") (py "hello")
  = Ok (py "hello" ++ py " ", [], py "[]").
Proof.
  apply (parse_at_no_mention only_alice (all_named "alice") (py "hello")).
  vm_compute. reflexivity.
Defined.

Lemma parse_at_skips_unknown_user_witness :
  (forall st, at_body only_alice (all_named "alice") st (py "bob") = Ok st) /\
  _parse_at only_alice (all_named "alice") (py "@alice @bob hi")
  = parse_at_matches only_alice (all_named "alice") [py "alice"]
      (py "@alice @bob hi" ++ py " ").
Proof.
  apply (parse_at_skips_unknown_user only_alice (all_named "alice")
           (py "@alice @bob hi") [py "alice"] (py "bob") []).
  - vm_compute. reflexivity.
  - vm_compute. reflexivity.
Defined.

Lemma missing_secret_witness :
  let image := {| pic_url := py "u"; pic_width := 10; pic_height := 20;
                  pic_content := [1; 2] |} in
  let self := {| dynamic_id := PInt 7; credential := Credential_empty |} in
  send_dynamic urls silent BuildDynmaic_init Credential_empty []
    = (Raise CredentialNoSessdataException, []) /\
  upload_image urls silent image Credential_empty []
    = (Raise CredentialNoSessdataException, []) /\
  set_like urls silent self true []
    = (Raise CredentialNoSessdataException, []) /\
  delete urls silent self [] = (Raise CredentialNoSessdataException, []).
Proof.
  intros image self.
  destruct (missing_secret_raises_before_any_request urls silent
              BuildDynmaic_init image (PInt 7) true Credential_empty [])
    as [Hs _].
  apply Hs. reflexivity.
Defined.

Lemma get_reposts_offset_witness :
  let self := {| dynamic_id := PInt 7; credential := logged_in |} in
  get_reposts_params self (py "0") !! "offset" = None /\
  get_reposts_params self (py "123") !! "offset" = Some (PStr (py "123")).
Proof.
  intros self. split.
  - destruct (get_reposts_offset_param urls silent self (py "0") [])
      as [Hiff _].
    apply Hiff. reflexivity.
  - destruct (get_reposts_offset_param urls silent self (py "123") [])
      as (_ & H & _).
    exact H.
Defined.

Lemma set_like_status_witness :
  let self := {| dynamic_id := PInt 7; credential := logged_in |} in
  snd (set_like urls (self_is 99) self false [])
  = [EvGetSelfInfo logged_in;
     EvRequest
       {| req_method := "POST"; req_url := urls "operate" "like";
          req_params := None;
          req_data := Some {[ "dynamic_id" := PInt 7; "up" := PInt 2;
                              "uid" := PInt 99 ]};
          req_files := None; req_json_body := false;
          req_credential := Some logged_in |}].
Proof.
  intros self.
  apply (set_like_status_encoding urls (self_is 99) self false []
           (py "s") (py "j") (PDict {[ "mid" := PInt 99 ]}) (PInt 99));
    reflexivity.
Defined.

Lemma handle_argument_witness :
  add_at no_repr (UserHandle (User_init 5 PNone)) BuildDynmaic_init
    = (Raise AttributeError, BuildDynmaic_init) /\
  set_topic (TopicHandle (Topic_init 8 PNone)) BuildDynmaic_init
    = (Raise AttributeError, BuildDynmaic_init) /\
  (forall n, fst (add_at no_repr (UserId n) BuildDynmaic_init) = Ok tt) /\
  (forall n, fst (set_topic (TopicId n) BuildDynmaic_init) = Ok tt).
Proof.
  apply (handle_argument_raises_attribute_error no_repr
           (User_init 5 PNone) (Topic_init 8 PNone) BuildDynmaic_init).
  - intros k [v Hk]. unfold User_init in Hk. simpl in Hk.
    apply lookup_insert_Some in Hk as [[<- _]|[_ Hk]]; [reflexivity|].
    apply lookup_singleton_Some in Hk as [<- _]. reflexivity.
  - intros k [v Hk]. unfold Topic_init in Hk. simpl in Hk.
    apply lookup_insert_Some in Hk as [[<- _]|[_ Hk]]; [reflexivity|].
    apply lookup_singleton_Some in Hk as [<- _]. reflexivity.
Defined.

(** ** Instances of the further properties *)

Lemma finditer_at_nil_witness :
  finditer_at (py "hello" ++ py " ") = [].
Proof.
  apply (finditer_at_nil_iff (py "hello")).
  apply (bool_decide_unpack _). vm_compute. exact I.
Defined.

Lemma finditer_at_first_mention_witness :
  exists more,
    finditer_at ((py "mail a" ++ AT_SIGN :: py "bob" ++ py " now") ++ py " ")
    = py "bob" :: more.
Proof.
  apply (finditer_at_first_mention (py "mail a") (py "bob") (py " now")).
  - apply (bool_decide_unpack _). vm_compute. exact I.
  - repeat constructor.
  - reflexivity.
Defined.

Lemma parse_at_all_unknown_witness :
  _parse_at only_alice (all_named "alice") (py "@bob @carol")
  = Ok (py "@bob @carol" ++ py " ", [], py "[]").
Proof.
  apply (parse_at_all_unknown only_alice (all_named "alice")
           (py "@bob @carol")).
  assert (E : finditer_at (py "@bob @carol" ++ py " ")
              = [py "bob"; py "carol"]) by (vm_compute; reflexivity).
  rewrite E. repeat constructor.
Defined.

Lemma parse_at_single_mention_witness :
  _parse_at only_alice (all_named "alice") (py "hi @alice")
  = Ok (py "hi @alice ", py "42",
        json_dumps_ctrl
          [{| ctrl_location := 3; ctrl_type := 1; ctrl_length := 7;
              ctrl_data := 42 |}]).
Proof.
  apply (parse_at_single_mention only_alice (all_named "alice")
           (py "hi @alice") (py "alice") 42 (py "alice"));
    vm_compute; reflexivity.
Defined.

Lemma parse_at_uids_in_text_order_witness :
  py "42,42"
    = str_join (py ",")
        (str_of_Z <$> resolved_uids only_alice
                        (finditer_at (py "@alice @alice" ++ py " "))) /\
  exists recs,
    json_dumps_ctrl
      [{| ctrl_location := 0; ctrl_type := 1; ctrl_length := 7;
          ctrl_data := 42 |};
       {| ctrl_location := 0; ctrl_type := 1; ctrl_length := 7;
          ctrl_data := 42 |}] = json_dumps_ctrl recs /\
    ctrl_data <$> recs
      = resolved_uids only_alice (finditer_at (py "@alice @alice" ++ py " ")) /\
    Forall (fun r => ctrl_type r = 1%Z) recs.
Proof.
  apply (parse_at_uids_in_text_order only_alice (all_named "alice")
           (py "@alice @alice") (py "@alice @alice ")).
  vm_compute. reflexivity.
Defined.

Lemma parse_at_records_witness :
  exists recs,
    json_dumps_ctrl
      [{| ctrl_location := 0; ctrl_type := 1; ctrl_length := 7;
          ctrl_data := 42 |};
       {| ctrl_location := 0; ctrl_type := 1; ctrl_length := 7;
          ctrl_data := 42 |}] = json_dumps_ctrl recs /\
    Forall2 (fun name r =>
               str_find (AT_SIGN :: name) (py "@alice @alice ")
                 = Some (Z.to_nat (ctrl_location r)) /\
               (0 <= ctrl_location r)%Z /\
               starts_with (AT_SIGN :: name)
                 (drop (Z.to_nat (ctrl_location r)) (py "@alice @alice "))
                 = true /\
               ctrl_length r = (2 + Z.of_nat (length name))%Z)
      (resolved_names only_alice (all_named "alice")
         (finditer_at (py "@alice @alice" ++ py " "))) recs.
Proof.
  apply (parse_at_records_point_at_first_occurrence only_alice
           (all_named "alice") (py "@alice @alice") (py "@alice @alice ")
           (py "42,42")).
  vm_compute. reflexivity.
Defined.

Lemma parse_at_rewrites_only_uids_witness :
  py "hi @alice " = py "hi @alice" ++ py " ".
Proof.
  apply (parse_at_rewrites_only_uids only_alice (all_named "alice")
           (py "hi @alice") (py "hi @alice ") (py "42")
           (json_dumps_ctrl
              [{| ctrl_location := 3; ctrl_type := 1; ctrl_length := 7;
                  ctrl_data := 42 |}])).
  - assert (E : resolved_uids only_alice
                  (finditer_at (py "hi @alice" ++ py " ")) = [42%Z])
      by (vm_compute; reflexivity).
    rewrite E. intros uid Hin.
    apply list_elem_of_singleton in Hin. subst uid.
    vm_compute. reflexivity.
  - vm_compute. reflexivity.
Defined.

Lemma parse_at_aborts_witness :
  _parse_at empty_uid_list (all_named "bob") (py "@bob") = Raise IndexError /\
  _parse_at all_are_42 nameless (py "@bob") = Raise KeyError.
Proof.
  split.
  - apply (proj1 (parse_at_aborts_on_other_errors empty_uid_list
                    (all_named "bob") (py "@bob") [] (py "bob") []
                    ltac:(vm_compute; reflexivity)
                    ltac:(by apply Forall_nil))).
    reflexivity.
  - apply (proj2 (proj2 (parse_at_aborts_on_other_errors all_are_42 nameless
                           (py "@bob") [] (py "bob") []
                           ltac:(vm_compute; reflexivity)
                           ltac:(by apply Forall_nil))) 42%Z);
      reflexivity.
Defined.

Lemma builder_entries_witness :
  PDict {[ "biz_id" := PInt 5; "type" := PInt 9;
           "raw_text" := PStr (py "@5") ]}
    ∈ contents (run_calls no_repr no_title [CallAddAt (UserId 5)]
                  BuildDynmaic_init) /\
  ({[ "biz_id" := PInt 5; "type" := PInt 9;
      "raw_text" := PStr (py "@5") ]} : gmap string pyval) !! "type"
    <> Some (PInt (DynmaicContentType.value DynmaicContentType.AT)).
Proof.
  assert (Hin : PDict {[ "biz_id" := PInt 5; "type" := PInt 9;
                         "raw_text" := PStr (py "@5") ]}
                  ∈ contents (run_calls no_repr no_title
                                [CallAddAt (UserId 5)] BuildDynmaic_init))
    by (simpl; left).
  split; [exact Hin|].
  exact (proj2 (proj2 (builder_entries_have_wire_shape no_repr no_title
                         [CallAddAt (UserId 5)])) _ Hin).
Defined.

Lemma options_witness :
  let info := run_calls no_repr no_title
                [CallSetOptions true false; CallSetOptions false false]
                BuildDynmaic_init in
  options info !! "up_choose_comment" = Some (PInt 1) /\
  options info !! "close_comment" = None /\
  options info !! "other" = None.
Proof.
  intros info.
  destruct (options_once_set_stay_set no_repr no_title
              [CallSetOptions true false; CallSetOptions false false]
              BuildDynmaic_init) as (Hup & Hcl & Hother).
  split; [exact Hup|]. split; [exact Hcl|].
  apply Hother; discriminate.
Defined.

Lemma add_vote_witness :
  (fst (add_vote no_title (VoteId 3) BuildDynmaic_init)
     = Raise NetworkException /\
   contents (snd (add_vote no_title (VoteId 3) BuildDynmaic_init))
     = [PDict {[ "biz_id" := PStr []; "type" := PInt 1;
                 "raw_text" := PStr vote_caption ]}]) /\
  (fst (add_vote titled_poll (VoteHandle {| vote_id := 3 |})
          BuildDynmaic_init) = Ok tt /\
   contents (snd (add_vote titled_poll (VoteHandle {| vote_id := 3 |})
                    BuildDynmaic_init))
     = [PDict {[ "biz_id" := PStr []; "type" := PInt 1;
                 "raw_text" := PStr vote_caption ]};
        PDict {[ "biz_id" := PStr (py "3"); "type" := PInt 4;
                 "raw_text" := PStr (py "poll") ]}]).
Proof.
  split.
  - apply (proj1 (add_vote_keeps_caption_on_failure no_title (VoteId 3)
                    BuildDynmaic_init) NetworkException).
    reflexivity.
  - apply (proj2 (add_vote_keeps_caption_on_failure titled_poll
                    (VoteHandle {| vote_id := 3 |}) BuildDynmaic_init)
             (py "poll")).
    reflexivity.
Defined.

Lemma dyn_req_scene_witness :
  let image := {| pic_url := py "u"; pic_width := 10; pic_height := 20;
                  pic_content := [] |} in
  is_Some (dyn_req (add_image image BuildDynmaic_init) !! "pics").
Proof.
  intros image.
  apply (proj2 (dyn_req_scene_matches_pics (add_image image BuildDynmaic_init))).
  reflexivity.
Defined.

Lemma send_dynamic_outcome_witness :
  fst (send_dynamic urls posted_77 BuildDynmaic_init logged_in [])
    = Ok {| dynamic_id := PInt 77; credential := logged_in |} /\
  fst (send_dynamic urls silent BuildDynmaic_init logged_in [])
    = Raise KeyError /\
  fst (send_dynamic urls offline BuildDynmaic_init logged_in [])
    = Raise NetworkException.
Proof.
  split; [|split].
  - destruct (send_dynamic_outcome urls posted_77 BuildDynmaic_init
                logged_in (py "s") [] eq_refl)
      as (r & _ & _ & _ & Hok & _).
    apply (Hok {[ "dyn_id" := PInt 77 ]} (PInt 77)); reflexivity.
  - destruct (send_dynamic_outcome urls silent BuildDynmaic_init
                logged_in (py "s") [] eq_refl)
      as (r & _ & _ & _ & _ & Hkey & _).
    apply (Hkey ∅); reflexivity.
  - destruct (send_dynamic_outcome urls offline BuildDynmaic_init
                logged_in (py "s") [] eq_refl)
      as (r & _ & _ & _ & _ & _ & Hexn).
    apply Hexn. reflexivity.
Defined.

Lemma set_like_sends_nothing_witness :
  let self := {| dynamic_id := PInt 7; credential := logged_in |} in
  set_like urls offline self true []
    = (Raise NetworkException, [EvGetSelfInfo logged_in]) /\
  set_like urls silent self true []
    = (Raise KeyError, [EvGetSelfInfo logged_in]).
Proof.
  intros self.
  destruct (set_like_sends_nothing_without_mid urls offline self true []
              (py "s") (py "j") eq_refl eq_refl) as [Hexn _].
  destruct (set_like_sends_nothing_without_mid urls silent self true []
              (py "s") (py "j") eq_refl eq_refl) as [_ Hmid].
  split.
  - apply Hexn. reflexivity.
  - apply (Hmid (PDict ∅)); reflexivity.
Defined.

Lemma other_operations_guard_witness :
  repost only_alice (all_named "alice") urls silent
    {| dynamic_id := PInt 7; credential := Credential_empty |}
    (py "hi") []
    = (Raise CredentialNoSessdataException, []) /\
  get_schedules_list urls silent Credential_empty []
    = (Raise CredentialNoSessdataException, []) /\
  send_schedule_now urls silent 3 Credential_empty []
    = (Raise CredentialNoSessdataException, []) /\
  delete_schedule urls silent 3 Credential_empty []
    = (Raise CredentialNoSessdataException, []) /\
  get_new_dynamic_users urls silent (Some Credential_empty) []
    = (Raise CredentialNoSessdataException, []) /\
  get_live_users urls silent 10 (Some Credential_empty) []
    = (Raise CredentialNoSessdataException, []).
Proof.
  apply (other_operations_guard_sessdata only_alice (all_named "alice")
           urls silent (PInt 7) (py "hi") 3 10 Credential_empty []).
  reflexivity.
Defined.

Lemma get_info_witness :
  exists out,
    fst (get_info urls one_card loads_wrap
           {| dynamic_id := PInt 7; credential := Credential_empty |} [])
      = Ok (PDict out) /\
    out !! "card" = Some (PList [PStr (py "{}")]) /\
    out !! "extend_json" = Some (PList [PStr (py "[]")]) /\
    forall k, k <> "card" -> k <> "extend_json" ->
      out !! k
      = ({[ "card" := PStr (py "{}"); "extend_json" := PStr (py "[]");
            "desc" := PInt 5 ]} : gmap string pyval) !! k.
Proof.
  eapply (get_info_decodes_two_fields urls one_card loads_wrap
            {| dynamic_id := PInt 7; credential := Credential_empty |} []);
    reflexivity.
Defined.


Lemma dynamic_page_witness :
  Forall2 (fun item d =>
             exists id_str id,
               getitem item "id_str" = Ok id_str /\
               int_plain id_str = Ok id /\
               d = {| dynamic_id := PInt id; credential := logged_in |})
    [PDict {[ "id_str" := PStr (py "11") ]};
     PDict {[ "id_str" := PStr (py "12") ]}]
    [{| dynamic_id := PInt 11; credential := logged_in |};
     {| dynamic_id := PInt 12; credential := logged_in |}].
Proof.
  eapply (dynamic_page_one_handle_per_item urls two_items int_plain
            logged_in (Some DynamicType.VIDEO) None 1 None []);
    reflexivity.
Defined.
